(** * OmegaConf: scalar value nodes and the sequence container

    A shallow embedding of [omegaconf/nodes.py] and [omegaconf/listconfig.py].

    Python objects are dynamically typed; the embedding keeps that in two
    layers.  [pyval] is the universe of raw values a scalar node can be handed
    ([None], [bool], [int], [float], [str], enum members and "any other
    object").  [pyobj] adds the node objects themselves, for the arguments of
    the container methods.  Exceptions are values of [Exc]; a function that can
    raise returns [result], and a method that mutates its [ListConfig] returns
    an [Outcome] that carries the container as it is when the call ends,
    normally or by an exception. *)

From Stdlib Require Import ZArith String Ascii List Bool Lia.
From Stdlib Require Import Floats.SpecFloat.
From Stdlib Require Import Sorting.Sorted.
From stdpp Require Import base decidable option list gmap strings pretty sorting.

Local Open Scope Z_scope.
Local Open Scope string_scope.

(** ** Exceptions *)

(** The exception classes of [omegaconf/errors.py] that the two modules raise,
    and the Python built-in exceptions that reach their callers.  The payload
    is the constructor argument: a message, or for [ReadonlyConfigError] the
    path it was given, if any. *)
Inductive Exc : Type :=
| ValidationError (msg : string)
| UnsupportedValueType (msg : string)
| UnsupportedKeyType (msg : string)
| ReadonlyConfigError (path : option string)
| MissingMandatoryValue (msg : string)
| ValueError (msg : string)
| KeyError (key : string)
| IndexError (msg : string)
| TypeError (msg : string)
| AttributeError
| AssertionError
| OverflowError.

Inductive result (A : Type) : Type :=
| Ok (a : A)
| Err (e : Exc).
Arguments Ok {A} a.
Arguments Err {A} e.

#[global] Instance result_ret : MRet result := fun _ a => Ok a.
#[global] Instance result_bind : MBind result := fun _ _ f m =>
  match m with
  | Ok a => f a
  | Err e => Err e
  end.
#[global] Instance result_fmap : FMap result := fun _ _ f m =>
  match m with
  | Ok a => Ok (f a)
  | Err e => Err e
  end.

(** ** Raw Python values *)

(** The value of an enum member: the right-hand side of its definition. *)
Inductive enum_value : Type :=
| EnumInt (z : Z)
| EnumStr (s : string).

(** An [Enum] subclass: its [__name__] and its body, name by name in
    definition order.  A name whose value repeats an earlier one is an alias
    of the earlier member, as in Python. *)
Record EnumType : Type := mkEnumType {
  enum_name : string;
  enum_defs : list (string * enum_value)
}.

(** [VEnum ty name] is the member [name] of [ty]; [VObj tyname text] is an
    object of any other class, known by the name of its class and by what
    [str()] gives for it.  Floats are IEEE binary64 data. *)
Inductive pyval : Type :=
| VNone
| VBool (b : bool)
| VInt (z : Z)
| VFloat (f : spec_float)
| VStr (s : string)
| VEnum (ty : EnumType) (name : string)
| VObj (tyname : string) (text : string).

#[global] Instance enum_value_eq_dec : EqDecision enum_value.
Proof. solve_decision. Defined.
#[global] Instance EnumType_eq_dec : EqDecision EnumType.
Proof. solve_decision. Defined.
#[global] Instance spec_float_eq_dec : EqDecision spec_float.
Proof. solve_decision. Defined.
#[global] Instance pyval_eq_dec : EqDecision pyval.
Proof. solve_decision. Defined.

Definition is_none (v : pyval) : bool :=
  match v with VNone => true | _ => false end.

(** [type(value).__name__] *)
Definition py_type_name (v : pyval) : string :=
  match v with
  | VNone => "NoneType"
  | VBool _ => "bool"
  | VInt _ => "int"
  | VFloat _ => "float"
  | VStr _ => "str"
  | VEnum ty _ => enum_name ty
  | VObj tyname _ => tyname
  end.

(** ** Python built-ins on strings and numbers *)

Module Py.

(** A [str] is the sequence of its code points, one [ascii] each: the text
    of the model is the text whose code points are below 256.  CPython's
    optional cap on the number of digits that [int()] and [str()] convert
    ([sys.set_int_max_str_digits]) is taken to be off. *)

(** Whitespace as [int()] skips it at both ends of a [str]: tab, line feed,
    vertical tab, form feed, carriage return and space, and, of the code
    points from 128 on, next line (133) and no-break space (160).  The
    separators 28 to 31 are whitespace for [str.isspace], not for [int()]. *)
Definition is_space (c : ascii) : bool :=
  let n := nat_of_ascii c in
  ((9 <=? n) && (n <=? 13) || (n =? 32) || (n =? 133) || (n =? 160))%nat.

Definition digit_of (c : ascii) : option Z :=
  let n := nat_of_ascii c in
  if ((48 <=? n) && (n <=? 57))%nat then Some (Z.of_nat n - 48) else None.

Fixpoint lstrip (l : list ascii) : list ascii :=
  match l with
  | c :: l' => if is_space c then lstrip l' else l
  | [] => []
  end.

Definition strip (l : list ascii) : list ascii :=
  rev (lstrip (rev (lstrip l))).

(** Decimal digits, single underscores allowed between two digits.
    [prev] tells whether the previous character was a digit. *)
Fixpoint digits (acc : Z) (prev : bool) (l : list ascii) : option Z :=
  match l with
  | [] => if prev then Some acc else None
  | c :: l' =>
      match digit_of c with
      | Some d => digits (10 * acc + d) true l'
      | None =>
          if (Ascii.eqb c "_" && prev)%bool then
            match l' with
            | [] => None
            | _ => digits acc false l'
            end
          else None
      end
  end.

Definition signed_digits (l : list ascii) : option Z :=
  match l with
  | c :: l' =>
      if Ascii.eqb c "-" then Z.opp <$> digits 0 false l'
      else if Ascii.eqb c "+" then digits 0 false l'
      else digits 0 false l
  | [] => None
  end.

(** [int(s)] for a [str]: [None] stands for [ValueError]. *)
Definition int_of_str (s : string) : option Z :=
  signed_digits (strip (list_ascii_of_string s)).

(** The lower-case form of a code point below 256: the letters A to Z, and
    the accented capitals 192 to 222 (215, the multiplication sign, apart),
    each 32 below its lower-case form. *)
Definition lower_char (c : ascii) : ascii :=
  let n := nat_of_ascii c in
  if ((65 <=? n) && (n <=? 90)
      || (192 <=? n) && (n <=? 222) && negb (n =? 215))%nat
  then ascii_of_nat (n + 32) else c.

(** [s.lower()] *)
Fixpoint lower (s : string) : string :=
  match s with
  | EmptyString => EmptyString
  | String c s' => String (lower_char c) (lower s')
  end.

(** [s[n:]] *)
Fixpoint drop_prefix (n : nat) (s : string) : string :=
  match n, s with
  | O, _ => s
  | S n', String _ s' => drop_prefix n' s'
  | S _, EmptyString => EmptyString
  end.

(** [str(z)] for an [int] *)
Definition str_of_int (z : Z) : string := pretty z.

(** A number as Python compares it: not a number, an infinity, or the
    exact value [m * 2 ^ e]. *)
Inductive xnum : Type :=
| XNaN
| XInf (negative : bool)
| XFin (m e : Z).

Definition xnum_of_float (f : spec_float) : xnum :=
  match f with
  | S754_zero _ => XFin 0 0
  | S754_infinity s => XInf s
  | S754_nan => XNaN
  | S754_finite s m e => XFin (if s then Z.neg m else Z.pos m) e
  end.

Definition xcompare (a b : xnum) : option comparison :=
  match a, b with
  | XNaN, _ | _, XNaN => None
  | XInf s, XInf t =>
      Some (match s, t with
            | true, false => Lt
            | false, true => Gt
            | _, _ => Eq
            end)
  | XInf s, XFin _ _ => Some (if s then Lt else Gt)
  | XFin _ _, XInf t => Some (if t then Gt else Lt)
  | XFin m1 e1, XFin m2 e2 =>
      let e := Z.min e1 e2 in
      Some (Z.compare (m1 * 2 ^ (e1 - e)) (m2 * 2 ^ (e2 - e)))
  end.

(** [math.isnan] *)
Definition isnan (f : spec_float) : bool :=
  match f with S754_nan => true | _ => false end.

(** [float(z)] for an [int]: round to nearest even; [None] stands for
    [OverflowError]. *)
Definition float_of_int (z : Z) : option spec_float :=
  match binary_normalize 53 1024 z 0 false with
  | S754_infinity _ => None
  | f => Some f
  end.

End Py.

(** The numeric reading of [bool], [int] and [float]. *)
Definition to_xnum (v : pyval) : option Py.xnum :=
  match v with
  | VBool b => Some (Py.XFin (if b then 1 else 0) 0)
  | VInt z => Some (Py.XFin z 0)
  | VFloat f => Some (Py.xnum_of_float f)
  | _ => None
  end.

(** [a == b] on raw values: numbers by value across [bool], [int] and
    [float], strings by content, everything else by identity. *)
Definition py_eq (a b : pyval) : bool :=
  match to_xnum a, to_xnum b with
  | Some x, Some y =>
      match Py.xcompare x y with Some Eq => true | _ => false end
  | None, None => bool_decide (a = b)
  | _, _ => false
  end.

(** [a < b] on raw values; across kinds Python raises [TypeError]. *)
Definition py_lt (a b : pyval) : result bool :=
  match to_xnum a, to_xnum b with
  | Some x, Some y =>
      Ok (match Py.xcompare x y with Some Lt => true | _ => false end)
  | _, _ =>
      match a, b with
      | VStr s, VStr t => Ok (String.ltb s t)
      | _, _ =>
          Err (TypeError ("'<' not supported between instances of '"
                          ++ py_type_name a ++ "' and '" ++ py_type_name b ++ "'"))
      end
  end.

(** ** The data model *)

(** What the classifier of [omegaconf/_utils.py] reports for a string. *)
Inductive ValueKind : Type :=
| VALUE
| MANDATORY_MISSING
| INTERPOLATION.

(** The concrete subclasses of [ValueNode], as a tag; [EnumNode] carries the
    enum class it is bound to. *)
Inductive NodeKind : Type :=
| AnyNode
| StringNode
| IntegerNode
| FloatNode
| BooleanNode
| EnumNode (enum_type : EnumType).

(** A [ValueNode] object.  The back-reference [parent] is not a field here:
    a node is owned by the container whose [content] holds it. *)
Record ValueNode : Type := mkValueNode {
  kind : NodeKind;
  is_optional : bool;
  val : pyval
}.

(** An element of a container: a scalar node or a nested [ListConfig]. *)
#[local] Unset Elimination Schemes.
Inductive Node : Type :=
| NValue (n : ValueNode)
| NList (items : list Node) (element_type : NodeKind) (node_flags : gmap string bool).
#[local] Set Elimination Schemes.

(** The chain of owners above a container, as [_get_flag] and
    [get_full_key] walk it: each owner's local flags and, when it has an owner
    itself, the key it has there. *)
Inductive Ancestor : Type :=
| Root (anc_flags : gmap string bool)
| Owned (anc_flags : gmap string bool) (anc_key : string) (anc_parent : Ancestor).

(** A [ListConfig] object: [content], [_element_type], [flags] and [parent]
    (with the key this container has in its parent). *)
Record ListConfig : Type := mkListConfig {
  content : list Node;
  _element_type : NodeKind;
  flags : gmap string bool;
  parent : option (string * Ancestor)
}.

(** Any Python object a container method can be handed: a raw value or a
    node object. *)
Inductive pyobj : Type :=
| OVal (v : pyval)
| ONode (n : Node).

(** What the two modules take from outside.  [get_value_kind] is the
    classifier imported from [omegaconf/_utils.py]; [_resolve_with_default]
    is the read hook of [BaseContainer] ([self], key, stored node, default),
    which may raise; [float_of_str] and [str_of_float] are Python's
    [float(s)] ([None] for [ValueError]) and [str(f)]. *)
Class Externals : Type := {
  get_value_kind : string -> ValueKind;
  _resolve_with_default : ListConfig -> Z -> Node -> pyval -> result pyobj;
  float_of_str : string -> option spec_float;
  str_of_float : spec_float -> string
}.

Definition LF : string := String (ascii_of_nat 10) EmptyString.
Definition TAB : string := String (ascii_of_nat 9) EmptyString.

Section Nodes.
Context `{Externals}.

(** [str(value)] *)
Definition py_str (v : pyval) : string :=
  match v with
  | VNone => "None"
  | VBool b => if b then "True" else "False"
  | VInt z => Py.str_of_int z
  | VFloat f => str_of_float f
  | VStr s => s
  | VEnum ty name => enum_name ty ++ "." ++ name
  | VObj _ text => text
  end.

(** [str(type(value))] *)
Definition py_type_repr (v : pyval) : string :=
  match v with
  | VEnum ty _ => "<enum '" ++ enum_name ty ++ "'>"
  | _ => "<class '" ++ py_type_name v ++ "'>"
  end.

(** *** Enum classes *)

(** [ty.__members__[name].value] *)
Definition enum_member_value (ty : EnumType) (name : string) : option enum_value :=
  snd <$> List.find (fun d => String.eqb (fst d) name) (enum_defs ty).

(** [ty(v)]: the member with that value, the first one defined;
    [None] stands for [ValueError]. *)
Definition enum_call (ty : EnumType) (v : enum_value) : option string :=
  fst <$> List.find (fun d => bool_decide (snd d = v)) (enum_defs ty).

(** [ty[name]]: the member of that name, through aliases; [None] stands
    for [KeyError]. *)
Definition enum_getitem (ty : EnumType) (name : string) : option string :=
  enum_member_value ty name ≫= enum_call ty.

(** [self.fields], filled by [EnumNode.__init__] from [__members__]. *)
Definition fields (ty : EnumType) : list (string * enum_value) := enum_defs ty.

Definition in_fields (key : string) (ty : EnumType) : bool :=
  existsb (fun d => String.eqb (fst d) key) (fields ty).

(** *** [validate_and_convert], kind by kind *)

(** Modelled from the spec: [_is_primitive_type] of [omegaconf/omegaconf.py]
    is not in the source tree; the primitives are bool, int, float, str,
    none and the canonical values of the other kinds (enum members). *)
Definition _is_primitive_type (value : pyval) : bool :=
  match value with
  | VObj _ _ => false
  | _ => true
  end.

Definition AnyNode_validate_and_convert (value : pyval) : result pyval :=
  if negb (_is_primitive_type value) then
    Err (UnsupportedValueType
           ("Unsupported value type, type=" ++ py_type_repr value
            ++ ", value=" ++ py_str value))
  else Ok value.

Definition StringNode_validate_and_convert (value : pyval) : result pyval :=
  if negb (is_none value) then Ok (VStr (py_str value)) else Ok VNone.

Definition IntegerNode_validate_and_convert (value : pyval) : result pyval :=
  let failed :=
    Err (ValidationError
           ("Value '" ++ py_str value ++ "' could not be converted to Integer")) in
  match value with
  | VNone => Ok VNone
  | VStr s =>
      match Py.int_of_str s with
      | Some z => Ok (VInt z)
      | None => failed
      end
  | VInt z => Ok (VInt z)
  | _ => failed
  end.

Definition FloatNode_validate_and_convert (value : pyval) : result pyval :=
  let failed :=
    Err (ValidationError
           ("Value '" ++ py_str value ++ "' could not be converted to float")) in
  match value with
  | VNone => Ok VNone
  | VFloat f => Ok (VFloat f)
  | VStr s =>
      match float_of_str s with
      | Some f => Ok (VFloat f)
      | None => failed
      end
  | VInt z =>
      match Py.float_of_int z with
      | Some f => Ok (VFloat f)
      | None => Err OverflowError
      end
  | _ => failed
  end.

Definition truthy : list string := ["yes"; "y"; "on"; "true"].
Definition falsy : list string := ["no"; "n"; "off"; "false"].

Definition str_in (s : string) (l : list string) : bool :=
  existsb (String.eqb s) l.

Definition BooleanNode_validate_and_convert (value : pyval) : result pyval :=
  match value with
  | VBool b => Ok (VBool b)
  | VInt z => Ok (VBool (negb (Z.eqb z 0)))
  | VNone => Ok VNone
  | VStr s =>
      match Py.int_of_str s with
      | Some z => Ok (VBool (negb (Z.eqb z 0)))
      | None =>
          if str_in (Py.lower s) truthy then Ok (VBool true)
          else if str_in (Py.lower s) falsy then Ok (VBool false)
          else Err (ValidationError ("Value '" ++ s ++ "' is not a valid bool"))
      end
  | _ =>
      Err (ValidationError
             ("Value '" ++ py_str value ++ "' is not a valid bool (type "
              ++ py_type_name value ++ ")"))
  end.

Definition invalid_enum_value (enum_type : EnumType) (shown : string) : Exc :=
  ValidationError
    ("Invalid value '" ++ shown ++ "', expected one of:" ++ LF
     ++ String.concat LF (map (fun d => TAB ++ fst d) (fields enum_type))).

(** [isinstance(value, enum_type)], which for these values is also
    [issubclass(type(value), enum_type)]. *)
Definition is_member_of (enum_type : EnumType) (value : pyval) : bool :=
  match value with
  | VEnum ty _ => bool_decide (ty = enum_type)
  | _ => false
  end.

Definition EnumNode_validate_and_convert
    (enum_type : EnumType) (value : pyval) : result pyval :=
  match value with
  | VNone => Ok VNone
  | _ =>
      let type_is_str_or_int :=
        match value with VStr _ | VInt _ => true | _ => false end in
      if negb (is_member_of enum_type value) && negb type_is_str_or_int then
        Err (ValidationError
               ("Value " ++ py_str value ++ " (" ++ py_type_repr value
                ++ ") is not a valid input for <enum '" ++ enum_name enum_type ++ "'>"))
      else
        key ← match value with
              | VEnum _ name => Ok name
              | VStr s =>
                  let prefix := enum_name enum_type ++ "." in
                  let s' := if String.prefix prefix s
                            then Py.drop_prefix (String.length prefix) s else s in
                  match enum_getitem enum_type s' with
                  | Some name => Ok name
                  | None => Err (invalid_enum_value enum_type s')
                  end
              | VInt z =>
                  match enum_call enum_type (EnumInt z) with
                  | Some name => Ok name
                  | None => Err (invalid_enum_value enum_type (Py.str_of_int z))
                  end
              | _ => Err AssertionError
              end;
        if in_fields key enum_type then
          match enum_getitem enum_type key with
          | Some name => Ok (VEnum enum_type name)
          | None => Err (KeyError key)
          end
        else Err AssertionError
  end.

(** The abstract method, dispatched on the class of [self]. *)
Definition validate_and_convert (self : ValueNode) (value : pyval) : result pyval :=
  match kind self with
  | AnyNode => AnyNode_validate_and_convert value
  | StringNode => StringNode_validate_and_convert value
  | IntegerNode => IntegerNode_validate_and_convert value
  | FloatNode => FloatNode_validate_and_convert value
  | BooleanNode => BooleanNode_validate_and_convert value
  | EnumNode enum_type => EnumNode_validate_and_convert enum_type value
  end.

(** *** [ValueNode] *)

Definition value (self : ValueNode) : pyval := val self.

Definition set_val (self : ValueNode) (v : pyval) : ValueNode :=
  {| kind := kind self; is_optional := is_optional self; val := v |}.

Definition is_placeholder_kind (k : ValueKind) : bool :=
  match k with
  | INTERPOLATION | MANDATORY_MISSING => true
  | VALUE => false
  end.

Definition set_value (self : ValueNode) (value : pyval) : result ValueNode :=
  if match value with
     | VStr s => is_placeholder_kind (get_value_kind s)
     | _ => false
     end
  then Ok (set_val self value)
  else
    if negb (is_optional self) && is_none value then
      Err (ValidationError "Non optional field cannot be assigned None")
    else
      v ← validate_and_convert self value;
      Ok (set_val self v).

(** *** Constructors: [ValueNode.__init__] stores [is_optional] and sets
    [val] to none; each subclass then assigns its [value] argument. *)

Definition AnyNode_init (value : pyval) (is_optional : bool) : result ValueNode :=
  let self := {| kind := AnyNode; is_optional := is_optional; val := VNone |} in
  let self := {| kind := kind self; is_optional := true; val := val self |} in
  set_value self value.

Definition StringNode_init (value : pyval) (is_optional : bool) : result ValueNode :=
  set_value {| kind := StringNode; is_optional := is_optional; val := VNone |} value.

Definition IntegerNode_init (value : pyval) (is_optional : bool) : result ValueNode :=
  set_value {| kind := IntegerNode; is_optional := is_optional; val := VNone |} value.

Definition FloatNode_init (value : pyval) (is_optional : bool) : result ValueNode :=
  set_value {| kind := FloatNode; is_optional := is_optional; val := VNone |} value.

Definition BooleanNode_init (value : pyval) (is_optional : bool) : result ValueNode :=
  set_value {| kind := BooleanNode; is_optional := is_optional; val := VNone |} value.

(** [EnumNode.__init__] takes no value; its argument is an [Enum]
    subclass by its type here, so the constructor's check cannot fail. *)
Definition EnumNode_init (enum_type : EnumType) (is_optional : bool) : ValueNode :=
  {| kind := EnumNode enum_type; is_optional := is_optional; val := VNone |}.

(** *** [FloatNode.__eq__] *)

Definition is_float_nan (v : pyval) : bool :=
  match v with
  | VFloat f => Py.isnan f
  | _ => false
  end.

Definition obj_is_none (o : pyobj) : bool :=
  match o with
  | OVal VNone => true
  | _ => false
  end.

(** [self.val == other_val], where a raw value never equals a container. *)
Definition val_eq_obj (v : pyval) (o : pyobj) : bool :=
  match o with
  | OVal w => py_eq v w
  | ONode _ => false
  end.

Definition FloatNode_eq (self : ValueNode) (other : pyobj) : bool :=
  let other_val :=
    match other with
    | ONode (NValue n) => OVal (val n)
    | _ => other
    end in
  if is_none (val self) && obj_is_none other then true
  else if is_none (val self) && negb (obj_is_none other) then false
  else if negb (is_none (val self)) && obj_is_none other then false
  else
    let nan1 := is_float_nan (val self) in
    let nan2 := match other_val with OVal w => is_float_nan w | _ => false end in
    val_eq_obj (val self) other_val || (nan1 && nan2).

End Nodes.

(** ** Python lists *)

Module PyList.

(** The position of [l[i]] in a list of [len] elements, negative indices
    counting from the end; [None] stands for [IndexError]. *)
Definition position (len : nat) (i : Z) : option nat :=
  if (Z.leb 0 i && Z.ltb i (Z.of_nat len))%bool then Some (Z.to_nat i)
  else if (Z.leb (- Z.of_nat len) i && Z.ltb i 0)%bool
       then Some (Z.to_nat (i + Z.of_nat len))
       else None.

(** [l.insert(i, x)]: the index is clamped to the list, never an error. *)
Definition insert_position (len : nat) (i : Z) : nat :=
  if Z.ltb i 0 then Z.to_nat (Z.max 0 (i + Z.of_nat len))
  else Z.to_nat (Z.min i (Z.of_nat len)).

Definition insert {A} (i : Z) (x : A) (l : list A) : list A :=
  let p := insert_position (length l) i in
  take p l ++ x :: drop p l.

(** [del l[i]] *)
Definition delitem {A} (i : Z) (l : list A) : option (list A) :=
  p ← position (length l) i; Some (delete p l).

(** [l[i] = x] *)
Definition setitem {A} (i : Z) (x : A) (l : list A) : option (list A) :=
  p ← position (length l) i; Some (<[p:=x]> l).

(** [l.pop(i)]: the element and the rest. *)
Definition pop {A} (i : Z) (l : list A) : option (A * list A) :=
  p ← position (length l) i; x ← l !! p; Some (x, delete p l).

(** [l.sort(key=key, reverse=reverse)].  The keys are computed first; a
    key that raises leaves the list as it was.  The elements are then put
    in order with [<] on the keys only, equal keys keeping their order; for
    [reverse] the list is reversed before and after.  A comparison that
    raises ends the sort with the elements in the order reached so far
    (CPython promises no more than some rearrangement there). *)
Section Sort.
Context {A : Type}.

Fixpoint decorate (key : A -> result pyval) (l : list A) : result (list (pyval * A)) :=
  match l with
  | [] => Ok []
  | x :: l' =>
      k ← key x;
      d ← decorate key l';
      Ok ((k, x) :: d)
  end.

Fixpoint insert_sorted (x : pyval * A) (s : list (pyval * A))
  : list (pyval * A) * option Exc :=
  match s with
  | [] => ([x], None)
  | y :: s' =>
      match py_lt (fst y) (fst x) with
      | Err e => (x :: s, Some e)
      | Ok true => let (r, e) := insert_sorted x s' in (y :: r, e)
      | Ok false => (x :: s, None)
      end
  end.

Fixpoint insertion_sort (l : list (pyval * A)) : list (pyval * A) * option Exc :=
  match l with
  | [] => ([], None)
  | x :: l' =>
      match insertion_sort l' with
      | (s, Some e) => (x :: s, Some e)
      | (s, None) => insert_sorted x s
      end
  end.

Definition sort (key : A -> result pyval) (reverse : bool) (l : list A)
  : list A * option Exc :=
  match decorate key l with
  | Err e => (l, Some e)
  | Ok d =>
      let d := if reverse then rev d else d in
      let (s, e) := insertion_sort d in
      let s := if reverse then rev s else s in
      (map snd s, e)
  end.
End Sort.

(** The index of the first element that satisfies [p]. *)
Fixpoint find_index {A} (p : A -> bool) (l : list A) : option nat :=
  match l with
  | [] => None
  | x :: l' => if p x then Some O else S <$> find_index p l'
  end.

End PyList.

(** ** [ListConfig] *)

(** How a call on a container ends: with a value or with an exception, and in
    both cases with the container as the call leaves it. *)
Inductive Outcome (A : Type) : Type :=
| Return (a : A) (self : ListConfig)
| Raise (e : Exc) (self : ListConfig).
Arguments Return {A} a self.
Arguments Raise {A} e self.

Definition state_of {A} (o : Outcome A) : ListConfig :=
  match o with
  | Return _ self => self
  | Raise _ self => self
  end.

(** The key of [__delitem__]: an index, or the slice [[:]]. *)
Inductive DelKey : Type :=
| DelIndex (i : Z)
| DelAll.

Section Containers.
Context `{Externals}.

Definition set_content (self : ListConfig) (c : list Node) : ListConfig :=
  {| content := c; _element_type := _element_type self;
     flags := flags self; parent := parent self |}.

Definition __len__ (self : ListConfig) : Z := Z.of_nat (length (content self)).

(** *** Inherited from [Node] and [BaseContainer] *)

Fixpoint ancestor_get_flag (a : Ancestor) (flag : string) : option bool :=
  match a with
  | Root fl => fl !! flag
  | Owned fl _ up =>
      match fl !! flag with
      | Some b => Some b
      | None => ancestor_get_flag up flag
      end
  end.

(** Modelled from the spec: [_get_flag] of [omegaconf/base.py] is not in
    the source tree.  Check the local flag mapping; if absent, delegate to
    the parent; with no parent the flag is unset. *)
Definition _get_flag (self : ListConfig) (flag : string) : option bool :=
  match flags self !! flag with
  | Some b => Some b
  | None =>
      match parent self with
      | Some (_, p) => ancestor_get_flag p flag
      | None => None
      end
  end.

(** The truth value of [self._get_flag("readonly")] in an [if]. *)
Definition readonly (self : ListConfig) : bool :=
  match _get_flag self "readonly" with
  | Some true => true
  | _ => false
  end.

Fixpoint ancestor_full_key (a : Ancestor) (key : string) : string :=
  match a with
  | Root _ => key
  | Owned _ k up => ancestor_full_key up k ++ "." ++ key
  end.

(** Modelled from the spec: [get_full_key] of
    [omegaconf/basecontainer.py] is not in the source tree.  The dotted path
    of the element at [key]: the path of this container in its parent, then
    the key. *)
Definition get_full_key (self : ListConfig) (key : string) : string :=
  match parent self with
  | None => key
  | Some (k, p) => ancestor_full_key p k ++ "." ++ key
  end.

(** [copy.deepcopy] of a container, reparented by the caller: values have
    no identity here, so the copy is the value. *)
Definition deepcopy (n : Node) : Node := n.

Definition node_init (annotated_type : NodeKind) (value : pyval) (is_optional : bool)
  : result ValueNode :=
  match annotated_type with
  | AnyNode => AnyNode_init value is_optional
  | StringNode => StringNode_init value is_optional
  | IntegerNode => IntegerNode_init value is_optional
  | FloatNode => FloatNode_init value is_optional
  | BooleanNode => BooleanNode_init value is_optional
  | EnumNode enum_type => set_value (EnumNode_init enum_type is_optional) value
  end.

(** Modelled from the spec: [_maybe_wrap] of [omegaconf/omegaconf.py] is
    not in the source tree.  A raw value is wrapped into a new [ValueNode]
    of the element type (Any when unconstrained), which validates it; an
    object that is a node already is taken as it is.  The parent is the
    container that stores the result. *)
Definition _maybe_wrap (annotated_type : NodeKind) (value : pyobj) (is_optional : bool)
  : result Node :=
  match value with
  | ONode n => Ok n
  | OVal v => NValue <$> node_init annotated_type v is_optional
  end.

(** Modelled from the spec: [_set_item_impl] of
    [omegaconf/basecontainer.py] is not in the source tree.  The value is
    wrapped for this container and stored at [index]. *)
Definition _set_item_impl (index : Z) (value : pyobj) (self : ListConfig) : Outcome unit :=
  match _maybe_wrap (_element_type self) value true with
  | Err e => Raise e self
  | Ok node =>
      match PyList.setitem index node (content self) with
      | Some c => Return tt (set_content self c)
      | None => Raise (IndexError "list assignment index out of range") self
      end
  end.

(** Modelled from the spec: [__delitem__] of [omegaconf/basecontainer.py]
    is not in the source tree.  It is a write, so it has the guard of the
    write path: fail with [ReadonlyConfigError] and the element's path when
    the flag is set, before anything is removed. *)
Definition __delitem__ (key : DelKey) (self : ListConfig) : Outcome unit :=
  if readonly self then
    Raise (ReadonlyConfigError
             (Some (get_full_key self
                      match key with
                      | DelIndex i => Py.str_of_int i
                      | DelAll => "slice(None, None, None)"
                      end))) self
  else
    match key with
    | DelAll => Return tt (set_content self [])
    | DelIndex i =>
        match PyList.delitem i (content self) with
        | Some c => Return tt (set_content self c)
        | None => Raise (IndexError "list assignment index out of range") self
        end
    end.

(** [type(value).__name__] for any object *)
Definition obj_type_name (o : pyobj) : string :=
  match o with
  | OVal v => py_type_name v
  | ONode (NList _ _ _) => "ListConfig"
  | ONode (NValue n) =>
      match kind n with
      | AnyNode => "AnyNode"
      | StringNode => "StringNode"
      | IntegerNode => "IntegerNode"
      | FloatNode => "FloatNode"
      | BooleanNode => "BooleanNode"
      | EnumNode _ => "EnumNode"
      end
  end.

(** *** The methods of [listconfig.py] *)

Definition _set_at_index (index : pyval) (value : pyobj) (self : ListConfig)
  : Outcome unit :=
  match match index with
        | VInt i => Some i
        | VBool b => Some (if b then 1 else 0)
        | _ => None
        end with
  | None =>
      Raise (UnsupportedKeyType
               ("Key type " ++ py_type_name index ++ " is not an int")) self
  | Some i =>
      if readonly self then
        Raise (ReadonlyConfigError (Some (get_full_key self (py_str index)))) self
      else
        let value :=
          match value with
          | ONode (NList items et fl) => ONode (deepcopy (NList items et fl))
          | _ => value
          end in
        match _set_item_impl i value self with
        | Raise (UnsupportedValueType _) self' =>
            Raise (UnsupportedValueType
                     ("key " ++ get_full_key self' (py_str index) ++ ": "
                      ++ obj_type_name value ++ " is not a supported type")) self'
        | o => o
        end
  end.

Definition __setitem__ (index : pyval) (value : pyobj) (self : ListConfig)
  : Outcome unit :=
  _set_at_index index value self.

Definition append (item : pyobj) (self : ListConfig) : Outcome unit :=
  if readonly self then
    Raise (ReadonlyConfigError
             (Some (get_full_key self (Py.str_of_int (__len__ self))))) self
  else
    match _maybe_wrap (_element_type self) item true with
    | Ok node => Return tt (set_content self (content self ++ [node]))
    | Err (UnsupportedValueType _) =>
        let full_key := get_full_key self (Py.str_of_int (__len__ self)) in
        Raise (UnsupportedValueType
                 ("key " ++ full_key ++ ": " ++ obj_type_name item
                  ++ " is not a supported type")) self
    | Err e => Raise e self
    end.

Definition insert (index : Z) (item : pyobj) (self : ListConfig) : Outcome unit :=
  if readonly self then
    Raise (ReadonlyConfigError (Some (get_full_key self (Py.str_of_int index)))) self
  else
    let attempt :=
      match AnyNode_init VNone true with
      | Err e => Raise e self
      | Ok placeholder =>
          _set_at_index (VInt index) item
            (set_content self (PyList.insert index (NValue placeholder) (content self)))
      end in
    match attempt with
    | Return _ self' => Return tt self'
    | Raise e self' =>
        match PyList.delitem index (content self') with
        | Some c => Raise e (set_content self' c)
        | None => Raise (IndexError "list assignment index out of range") self'
        end
    end.

Fixpoint extend (lst : list pyobj) (self : ListConfig) : Outcome unit :=
  match lst with
  | [] => Return tt self
  | x :: lst' =>
      match append x self with
      | Return _ self' => extend lst' self'
      | Raise e self' => Raise e self'
      end
  end.

(** What iterating the container yields: the value of a [ValueNode], any
    other element as it is. *)
Definition __iter__ (self : ListConfig) : list pyobj :=
  map (fun v => match v with
                | NValue n => OVal (value n)
                | _ => ONode v
                end) (content self).

(** [x == item] for a raw [x]: a container is never equal to it. *)
Definition item_eq (x : pyval) (item : pyobj) : bool :=
  match item with
  | OVal v => py_eq x v
  | ONode _ => false
  end.

Definition index (x : pyval) (self : ListConfig) : result Z :=
  match PyList.find_index (item_eq x) (__iter__ self) with
  | Some found_idx => Ok (Z.of_nat found_idx)
  | None => Err (ValueError "Item not found in ListConfig")
  end.

Definition remove (x : pyval) (self : ListConfig) : Outcome unit :=
  match index x self with
  | Ok i => __delitem__ (DelIndex i) self
  | Err e => Raise e self
  end.

Definition clear (self : ListConfig) : Outcome unit :=
  __delitem__ DelAll self.

Definition pop (index : Z) (self : ListConfig) : Outcome pyobj :=
  if readonly self then
    Raise (ReadonlyConfigError
             (Some (get_full_key self
                      (if Z.eqb index (-1) then "" else Py.str_of_int index)))) self
  else
    match PyList.pop index (content self) with
    | None =>
        Raise (IndexError (match content self with
                           | [] => "pop from empty list"
                           | _ => "pop index out of range"
                           end)) self
    | Some (node, rest) =>
        let self' := set_content self rest in
        match _resolve_with_default self' index node VNone with
        | Ok v => Return v self'
        | Err e => Raise e self'
        end
    end.

(** [x.value()] for an element [x]: only a [ValueNode] has the method in
    these modules; on a [ListConfig] the lookup goes to [__getattr__],
    which raises [AttributeError] for a name that is not an integer. *)
Definition node_value (x : Node) : result pyval :=
  match x with
  | NValue n => Ok (value n)
  | NList _ _ _ => Err AttributeError
  end.

Definition key1 (key : option (pyval -> result pyval)) (x : Node) : result pyval :=
  match key with
  | None => node_value x
  | Some k => v ← node_value x; k v
  end.

Definition sort (key : option (pyval -> result pyval)) (reverse : bool)
    (self : ListConfig) : Outcome unit :=
  if readonly self then Raise (ReadonlyConfigError None) self
  else
    match PyList.sort (key1 key) reverse (content self) with
    | (c, None) => Return tt (set_content self c)
    | (c, Some e) => Raise e (set_content self c)
    end.

(** [ListConfig(content, parent, element_type)]: starts empty and appends
    the items one by one. *)
Definition ListConfig_init (items : list pyobj) (parent : option (string * Ancestor))
    (element_type : NodeKind) : Outcome unit :=
  extend items {| content := []; _element_type := element_type;
                  flags := ∅; parent := parent |}.

End Containers.

(** The mutating operations of the write path, as calls. *)
Inductive Mutation : Type :=
| SetItem (index : pyval) (value : pyobj)
| Append (item : pyobj)
| Insert (index : Z) (item : pyobj)
| Pop (index : Z)
| Sort (key : option (pyval -> result pyval)) (reverse : bool)
| Remove (x : pyval)
| Clear
| Extend (lst : list pyobj).

Definition discard {A} (o : Outcome A) : Outcome unit :=
  match o with
  | Return _ self => Return tt self
  | Raise e self => Raise e self
  end.

Definition call `{Externals} (m : Mutation) (self : ListConfig) : Outcome unit :=
  match m with
  | SetItem index value => __setitem__ index value self
  | Append item => append item self
  | Insert index item => insert index item self
  | Pop index => discard (pop index self)
  | Sort key reverse => sort key reverse self
  | Remove x => remove x self
  | Clear => clear self
  | Extend lst => extend lst self
  end.

(** ** A concrete environment

    An instance of the externals on which the model runs: ["???"] is the
    mandatory-missing marker and a string that starts with ["${"] is an
    interpolation; reading an element unwraps it and refuses the marker;
    [float(s)] reads the strings that [int(s)] reads and ["nan"]. *)

Definition sample_value_kind (s : string) : ValueKind :=
  if String.eqb s "???" then MANDATORY_MISSING
  else if String.prefix "${" s then INTERPOLATION
  else VALUE.

Definition sample_resolve (self : ListConfig) (key : Z) (node : Node) (default_value : pyval)
  : result pyobj :=
  match node with
  | NValue n =>
      if bool_decide (val n = VStr "???")
      then Err (MissingMandatoryValue (get_full_key self (Py.str_of_int key)))
      else Ok (OVal (val n))
  | _ => Ok (ONode node)
  end.

Definition sample_float_of_str (s : string) : option spec_float :=
  if String.eqb (Py.lower s) "nan" then Some S754_nan
  else Py.int_of_str s ≫= Py.float_of_int.

Definition sample_str_of_float (f : spec_float) : string :=
  match Py.xnum_of_float f with
  | Py.XNaN => "nan"
  | Py.XInf s => if s then "-inf" else "inf"
  | Py.XFin m e => Py.str_of_int m ++ "*2**" ++ Py.str_of_int e
  end.

Definition sample_externals : Externals := {|
  get_value_kind := sample_value_kind;
  _resolve_with_default := sample_resolve;
  float_of_str := sample_float_of_str;
  str_of_float := sample_str_of_float
|}.

Definition Color : EnumType :=
  mkEnumType "Color" [("RED", EnumInt 1); ("CRIMSON", EnumInt 1); ("BLUE", EnumInt 2)].

(** An enum class is well formed when no name is defined twice, which
    Python enforces when the class is created. *)
Definition enum_wf (ty : EnumType) : Prop := NoDup (map fst (enum_defs ty)).

Definition kind_wf (k : NodeKind) : Prop :=
  match k with
  | EnumNode ty => enum_wf ty
  | _ => True
  end.

(** The node that [insert] puts in first: [AnyNode(None)]. *)
Definition placeholder : ValueNode :=
  {| kind := AnyNode; is_optional := true; val := VNone |}.

(** The node that wraps [v] in a container without an element type. *)
Definition any_node (v : pyval) : ValueNode :=
  {| kind := AnyNode; is_optional := true; val := v |}.




(** Containers to run the model on: [[1, 2]] at the root of a tree, the
    same list under a read-only root, and an empty list of integers. *)
Definition one_two : ListConfig :=
  {| content := [NValue (any_node (VInt 1)); NValue (any_node (VInt 2))];
     _element_type := AnyNode; flags := ∅; parent := None |}.

Definition frozen : ListConfig :=
  {| content := [NValue (any_node (VInt 1)); NValue (any_node (VInt 2))];
     _element_type := AnyNode; flags := ∅;
     parent := Some ("servers", Root {["readonly" := true]}) |}.

Definition no_ints : ListConfig :=
  {| content := []; _element_type := IntegerNode; flags := ∅; parent := None |}.

Definition an_object : pyobj := OVal (VObj "object" "<object object>").

(** How a read-only container answers each call of the write path, with the
    exception and the path each method builds. *)
Definition refusal `{Externals} (self : ListConfig) (m : Mutation) : Outcome unit :=
  let refused key := Raise (ReadonlyConfigError (Some (get_full_key self key))) self in
  match m with
  | SetItem ((VInt _ | VBool _) as index) _ => refused (py_str index)
  | SetItem index _ =>
      Raise (UnsupportedKeyType ("Key type " ++ py_type_name index ++ " is not an int")) self
  | Append _ | Extend (_ :: _) => refused (Py.str_of_int (__len__ self))
  | Insert index _ => refused (Py.str_of_int index)
  | Pop index => refused (if bool_decide (index = -1) then "" else Py.str_of_int index)
  | Sort _ _ => Raise (ReadonlyConfigError None) self
  | Remove x =>
      match index x self with
      | Ok i => refused (Py.str_of_int i)
      | Err _ => Raise (ValueError "Item not found in ListConfig") self
      end
  | Clear => refused "slice(None, None, None)"
  | Extend [] => Return tt self
  end.



(** What a call of the write path other than [insert] can have done to the
    container when it raises [e] and leaves [self'] in place of [self].
    Nothing is said of a [pop] whose read hook raises. *)
Definition after_failure `{Externals} (m : Mutation) (e : Exc) (self self' : ListConfig)
  : Prop :=
  match m with
  | Insert _ _ => True
  | Extend lst =>
      exists appended x rest,
        lst = (appended ++ x :: rest)%list
        /\ extend appended self = Return tt self'
        /\ append x self' = Raise e self'
  | Pop index =>
      readonly self = true \/ PyList.pop index (content self) = None -> self' = self
  | Sort _ _ =>
      content self' ≡ₚ content self /\ (readonly self = true -> self' = self)
  | SetItem _ _ | Append _ | Remove _ | Clear => self' = self
  end.

Definition missing_last : ListConfig :=
  {| content := [NValue (any_node (VInt 1)); NValue (any_node (VStr "???"))];
     _element_type := AnyNode; flags := ∅; parent := None |}.


Definition three_one_two : ListConfig :=
  {| content := [NValue (any_node (VInt 3)); NValue (any_node (VInt 1));
                 NValue (any_node (VInt 2))];
     _element_type := AnyNode; flags := ∅; parent := None |}.

Definition required_int : ValueNode :=
  {| kind := IntegerNode; is_optional := false; val := VInt 0 |}.

Definition color_node : ValueNode :=
  {| kind := EnumNode Color; is_optional := true; val := VNone |}.

Definition BooleanNode_on (opt : bool) (stored : pyval) : ValueNode :=
  {| kind := BooleanNode; is_optional := opt; val := stored |}.

(** In a sorted list of decorated elements no element is found smaller than
    the one before it. *)
Definition key_ordered {A} (a b : pyval * A) : Prop := py_lt b.1 a.1 = Ok false.

(** The value an element holds, for the elements that are scalar nodes. *)
Definition stored (x : Node) : pyval :=
  match x with
  | NValue n => val n
  | NList _ _ _ => VNone
  end.

(** ** The rest of [nodes.py] and [listconfig.py] *)

(** A loop that builds a list and stops at the first exception. *)
Fixpoint traverse {A B} (f : A -> result B) (l : list A) : result (list B) :=
  match l with
  | [] => Ok []
  | x :: l' =>
      match f x with
      | Err e => Err e
      | Ok y =>
          match traverse f l' with
          | Err e => Err e
          | Ok r => Ok (y :: r)
          end
      end
  end.

(** [itertools.islice(range(0, n), start, stop, step)]: the indices it
    yields, or the [ValueError] it raises for a negative bound or a step
    below one.  A missing argument is [None]. *)
Definition islice_range (n : nat) (start stop step : option Z) : result (list nat) :=
  let first := default 0 start in
  let stride := default 1 step in
  if bool_decide (stop = Some (-1)) then
    Err (ValueError "Stop argument for islice() must be None or an integer: 0 <= x <= sys.maxsize.")
  else if (Z.ltb first 0 || match stop with Some s => Z.ltb s (-1) | None => false end)%bool then
    Err (ValueError "Indices for islice() must be None or an integer: 0 <= x <= sys.maxsize.")
  else if Z.ltb stride 1 then
    Err (ValueError "Step for islice() must be a positive integer or None.")
  else
    Ok (List.filter
          (fun i =>
             let z := Z.of_nat i in
             (Z.leb first z
              && match stop with Some s => Z.ltb z s | None => true end
              && Z.eqb ((z - first) mod stride) 0)%bool)
          (seq 0 n)).

Section MoreMethods.
Context `{Externals}.

(** *** [ValueNode.__eq__], [__ne__] and [__deepcopy__] *)

(** [ValueNode.__eq__]: [self.val == other].  Against a raw value this is
    Python's [==] on values.  Against a node no built-in value knows the
    answer, so Python asks the node, operands swapped: a [FloatNode] answers
    with its own [__eq__], any other node with [other.val == self.val].  A
    container answers neither way and the objects are distinct. *)
Definition ValueNode_eq (self : ValueNode) (other : pyobj) : bool :=
  match other with
  | OVal w => py_eq (val self) w
  | ONode (NValue n) =>
      match kind n with
      | FloatNode => FloatNode_eq n (OVal (val self))
      | _ => py_eq (val n) (val self)
      end
  | ONode (NList _ _ _) => false
  end.

(** [self == other] for a node [self], by the class of [self]. *)
Definition node_eq (self : ValueNode) (other : pyobj) : bool :=
  match kind self with
  | FloatNode => FloatNode_eq self other
  | _ => ValueNode_eq self other
  end.

(** [ValueNode.__ne__] *)
Definition node_ne (self : ValueNode) (other : pyobj) : bool :=
  let x := node_eq self other in
  negb x.

(** [_deepcopy_impl]: [val] and [is_optional] of [self] are copied into
    [res]; the parent of [res] is none. *)
Definition _deepcopy_impl (self res : ValueNode) : ValueNode :=
  {| kind := kind res; is_optional := is_optional self; val := val self |}.

(** [__deepcopy__] of the six node classes: a node of the same class built
    with the constructor's defaults, then filled by [_deepcopy_impl]. *)
Definition ValueNode_deepcopy (self : ValueNode) : result ValueNode :=
  match match kind self with
        | AnyNode => AnyNode_init VNone true
        | StringNode => StringNode_init VNone true
        | IntegerNode => IntegerNode_init VNone true
        | FloatNode => FloatNode_init VNone true
        | BooleanNode => BooleanNode_init VNone true
        | EnumNode enum_type => Ok (EnumNode_init enum_type true)
        end with
  | Ok res => Ok (_deepcopy_impl self res)
  | Err e => Err e
  end.

(** [copy.deepcopy] of an element: a scalar node by [ValueNode_deepcopy],
    a nested list by [ListConfig.__deepcopy__], element by element. *)
Fixpoint node_deepcopy (n : Node) : result Node :=
  match n with
  | NValue v =>
      match ValueNode_deepcopy v with
      | Ok v' => Ok (NValue v')
      | Err e => Err e
      end
  | NList items et fl =>
      match (fix copy_all (l : list Node) : result (list Node) :=
               match l with
               | [] => Ok []
               | x :: l' =>
                   match node_deepcopy x with
                   | Err e => Err e
                   | Ok x' =>
                       match copy_all l' with
                       | Err e => Err e
                       | Ok r => Ok (x' :: r)
                       end
                   end
               end) items with
      | Ok items' => Ok (NList items' et fl)
      | Err e => Err e
      end
  end.

(** *** Reading a [ListConfig] *)

(** [self.content[index]] *)
Definition content_at (index : Z) (self : ListConfig) : result Node :=
  match PyList.position (List.length (content self)) index with
  | Some p =>
      match content self !! p with
      | Some node => Ok node
      | None => Err (IndexError "list index out of range")
      end
  | None => Err (IndexError "list index out of range")
  end.

Definition get_node (index : Z) (self : ListConfig) : result Node :=
  content_at index self.

(** [__getitem__] for an integer index *)
Definition __getitem__ (index : Z) (self : ListConfig) : result pyobj :=
  match content_at index self with
  | Ok node => _resolve_with_default self index node VNone
  | Err e => Err e
  end.

(** [__getitem__] for [slice(start, stop, step)]: a new plain list. *)
Definition getitem_slice (start stop step : option Z) (self : ListConfig)
  : result (list pyobj) :=
  match islice_range (List.length (content self)) start stop step with
  | Err e => Err e
  | Ok indices =>
      traverse (fun slice_idx =>
                  match content_at (Z.of_nat slice_idx) self with
                  | Ok node =>
                      _resolve_with_default self (Z.of_nat slice_idx) node VNone
                  | Err e => Err e
                  end) indices
  end.

Definition get (index : Z) (default_value : pyval) (self : ListConfig) : result pyobj :=
  match content_at index self with
  | Ok node => _resolve_with_default self index node default_value
  | Err e => Err e
  end.

(** [item == x] for a raw [x]: a container is never equal to it. *)
Definition eq_item (item : pyobj) (x : pyval) : bool :=
  match item with
  | OVal v => py_eq v x
  | ONode _ => false
  end.

Definition count (x : pyval) (self : ListConfig) : Z :=
  fold_left (fun c item => if eq_item item x then c + 1 else c) (__iter__ self) 0.

(** [__dir__]: the indices as strings. *)
Definition __dir__ (self : ListConfig) : list string :=
  map (fun x => Py.str_of_int (Z.of_nat x)) (seq 0 (List.length (content self))).

(** *** Building new containers *)

(** The container a constructor call or a method hands back, when it does
    not raise. *)
Definition returned (o : Outcome unit) : result ListConfig :=
  match o with
  | Return _ self => Ok self
  | Raise e _ => Err e
  end.

(** [ListConfig.__deepcopy__]: an empty root list, given deep copies of
    [content], [flags] and [_element_type]. *)
Definition __deepcopy__ (self : ListConfig) : result ListConfig :=
  match returned (ListConfig_init [] None AnyNode) with
  | Err e => Err e
  | Ok res =>
      match traverse node_deepcopy (content self) with
      | Err e => Err e
      | Ok copied =>
          Ok {| content := copied; _element_type := _element_type self;
                flags := flags self; parent := parent res |}
      end
  end.

(** [__add__]: a new list under the parent of [self], without an element
    type, extended with what iterating [self] yields and then with [o]. *)
Definition __add__ (self : ListConfig) (o : list pyobj) : result ListConfig :=
  match returned (ListConfig_init [] (parent self) AnyNode) with
  | Err e => Err e
  | Ok res =>
      match returned (extend (__iter__ self) res) with
      | Err e => Err e
      | Ok res => returned (extend o res)
      end
  end.

End MoreMethods.

(** What a node of each kind can hold after an assignment that did not defer
    to a placeholder: the canonical form of the kind, or none. *)
Definition canonical `{Externals} (k : NodeKind) (v : pyval) : Prop :=
  match k with
  | AnyNode => _is_primitive_type v = true
  | StringNode => v = VNone \/ exists s, v = VStr s
  | IntegerNode => v = VNone \/ exists z, v = VInt z
  | FloatNode => v = VNone \/ exists f, v = VFloat f
  | BooleanNode => v = VNone \/ exists b, v = VBool b
  | EnumNode ty => v = VNone \/ exists name, v = VEnum ty name /\ in_fields name ty = true
  end.

(** A string kept as it is because the classifier reports a placeholder. *)
Definition deferred `{Externals} (v : pyval) : Prop :=
  exists s, v = VStr s
            /\ (get_value_kind s = INTERPOLATION \/ get_value_kind s = MANDATORY_MISSING).

Definition detached (self : ListConfig) : ListConfig :=
  {| content := content self; _element_type := _element_type self;
     flags := flags self; parent := None |}.

Definition nested : ListConfig :=
  {| content := [NValue required_int;
                 NList [NValue (any_node (VStr "${a}")); NList [] FloatNode ∅]
                   IntegerNode {["readonly" := false]};
                 NValue color_node];
     _element_type := AnyNode; flags := ∅;
     parent := Some ("servers", Root {["readonly" := true]}) |}.

Definition float_node (v : pyval) : ValueNode :=
  {| kind := FloatNode; is_optional := true; val := v |}.

(** * Properties of the scalar nodes *)

Section NodeProperties.
Context `{Externals}.

(** C1: [set_value] keeps a string that the classifier reports as an
    interpolation or as the mandatory-missing marker exactly as given;
    for any other input it raises [ValidationError] when the input is none
    and the node is not optional, and otherwise stores what
    [validate_and_convert] returns (or raises what it raises). *)
Theorem set_value_cases (self : ValueNode) (v : pyval) :
  (forall s, v = VStr s ->
     get_value_kind s = INTERPOLATION \/ get_value_kind s = MANDATORY_MISSING ->
     set_value self v
     = Ok {| kind := kind self; is_optional := is_optional self; val := v |})
  /\ ((forall s, v = VStr s ->
         get_value_kind s <> INTERPOLATION /\ get_value_kind s <> MANDATORY_MISSING) ->
      (v = VNone -> is_optional self = false ->
       exists msg, set_value self v = Err (ValidationError msg))
      /\ (~ (v = VNone /\ is_optional self = false) ->
          (forall r, validate_and_convert self v = Ok r ->
             set_value self v
             = Ok {| kind := kind self; is_optional := is_optional self; val := r |})
          /\ (forall e, validate_and_convert self v = Err e ->
                set_value self v = Err e))).
Proof.
  split.
  - intros s -> Hk. unfold set_value.
    destruct Hk as [-> | ->]; reflexivity.
  - intros Hplain.
    assert (Hnot : match v with
                   | VStr s => is_placeholder_kind (get_value_kind s)
                   | _ => false
                   end = false).
    { destruct v; try reflexivity. destruct (Hplain s eq_refl) as [Hi Hm].
      destruct (get_value_kind s); [reflexivity | destruct Hm | destruct Hi];
        reflexivity. }
    unfold set_value. rewrite Hnot. split.
    + intros -> ->. simpl. eauto.
    + intros Hok.
      assert (Hguard : negb (is_optional self) && is_none v = false).
      { destruct (is_optional self) eqn:Ho; [reflexivity |].
        destruct v; try reflexivity. exfalso. apply Hok. split; reflexivity. }
      rewrite Hguard. split.
      * intros r ->. reflexivity.
      * intros e ->. reflexivity.
Qed.

(** *** Enum lookups *)

Lemma find_by_name_unique (defs : list (string * enum_value)) name v :
  NoDup (map fst defs) -> In (name, v) defs ->
  List.find (fun d => String.eqb (fst d) name) defs = Some (name, v).
Proof.
  induction defs as [| [n w] defs IH]; intros Hnd Hin; [destruct Hin |].
  simpl in *. apply NoDup_cons in Hnd as [Hfresh Hnd].
  destruct Hin as [Heq | Hin].
  - inversion Heq; subst. rewrite String.eqb_refl. reflexivity.
  - destruct (String.eqb_spec n name) as [-> | Hne].
    + exfalso. apply Hfresh. apply list_elem_of_In.
      apply (in_map fst) in Hin. exact Hin.
    + apply IH; assumption.
Qed.

Lemma find_name_in_fields (defs : list (string * enum_value)) p d :
  List.find p defs = Some d ->
  existsb (fun d' => String.eqb (fst d') (fst d)) defs = true.
Proof.
  intros Hf. apply find_some in Hf as [Hin _].
  apply existsb_exists. exists d. split; [exact Hin | apply String.eqb_refl].
Qed.

(** A member that [ty(v)] returns is found again under its own name. *)
Lemma enum_call_stable ty v name :
  enum_wf ty -> enum_call ty v = Some name ->
  in_fields name ty = true /\ enum_getitem ty name = Some name.
Proof.
  unfold enum_call, enum_getitem, enum_member_value, in_fields, fields.
  intros Hwf Hc.
  destruct (List.find _ (enum_defs ty)) as [[n w] |] eqn:Hf; [| discriminate].
  simpl in Hc. inversion Hc; subst n. split.
  - apply (find_name_in_fields _ _ _ Hf).
  - pose proof (find_some _ _ Hf) as [Hin Hv]. simpl in Hv.
    apply bool_decide_eq_true in Hv. subst w.
    rewrite (find_by_name_unique _ _ _ Hwf Hin). simpl.
    unfold enum_call. rewrite Hf. reflexivity.
Qed.

Lemma enum_getitem_stable ty key name :
  enum_wf ty -> enum_getitem ty key = Some name ->
  in_fields name ty = true /\ enum_getitem ty name = Some name.
Proof.
  intros Hwf Hg. unfold enum_getitem in Hg.
  destruct (enum_member_value ty key) as [v |]; [| discriminate].
  simpl in Hg. eapply enum_call_stable; eassumption.
Qed.

Lemma EnumNode_output ty x y :
  EnumNode_validate_and_convert ty x = Ok y ->
  y = VNone \/ exists key name, enum_getitem ty key = Some name /\ y = VEnum ty name.
Proof.
  unfold EnumNode_validate_and_convert. intros Hx.
  destruct x; try (left; congruence);
    (destruct (negb _ && negb _); [discriminate |]);
    match type of Hx with
    | (?m ≫= _) = _ => destruct m as [k |] eqn:Hkey; [| discriminate]
    end; simpl in Hx;
    (destruct (in_fields k ty); [| discriminate]);
    (destruct (enum_getitem ty k) as [member |] eqn:Hg; [| discriminate]);
    right; exists k, member; split; congruence.
Qed.

(** C4: for each of the six kinds, what [validate_and_convert] returns
    for an input it accepts is returned unchanged when it is given back to
    it. *)
Theorem validate_and_convert_idempotent (self : ValueNode) (x y : pyval) :
  kind_wf (kind self) ->
  validate_and_convert self x = Ok y ->
  validate_and_convert self y = Ok y.
Proof.
  unfold validate_and_convert. intros Hwf Hx.
  destruct (kind self) as [| | | | | ty].
  - unfold AnyNode_validate_and_convert in *.
    destruct (negb (_is_primitive_type x)) eqn:Hp; [discriminate |].
    inversion Hx; subst y. rewrite Hp. reflexivity.
  - unfold StringNode_validate_and_convert in *.
    destruct (negb (is_none x)); inversion Hx; reflexivity.
  - unfold IntegerNode_validate_and_convert in *.
    destruct x; try discriminate; try (inversion Hx; reflexivity).
    destruct (Py.int_of_str s); inversion Hx; reflexivity.
  - unfold FloatNode_validate_and_convert in *.
    destruct x; try discriminate; try (inversion Hx; reflexivity).
    + destruct (Py.float_of_int z); inversion Hx; reflexivity.
    + destruct (float_of_str s); inversion Hx; reflexivity.
  - unfold BooleanNode_validate_and_convert in *.
    destruct x; try discriminate; try (inversion Hx; reflexivity).
    destruct (Py.int_of_str s); [inversion Hx; reflexivity |].
    destruct (str_in _ truthy); [inversion Hx; reflexivity |].
    destruct (str_in _ falsy); inversion Hx; reflexivity.
  - simpl in Hwf.
    destruct (EnumNode_output _ _ _ Hx) as [-> | (key & name & Hg & ->)];
      [reflexivity |].
    destruct (enum_getitem_stable _ _ _ Hwf Hg) as [Hin Hg'].
    unfold EnumNode_validate_and_convert, is_member_of.
    rewrite bool_decide_eq_true_2 by reflexivity. simpl.
    rewrite Hin, Hg'. reflexivity.
Qed.

(** *** The Boolean vocabulary *)

Lemma lower_char_inv (a b : ascii) :
  Py.lower_char a = b -> a = b \/ a = ascii_of_nat (nat_of_ascii b - 32).
Proof.
  unfold Py.lower_char.
  match goal with |- (if ?c then _ else _) = _ -> _ => destruct c eqn:Hup end;
    intros Hb; [right | left; exact Hb].
  assert (Hlt : (nat_of_ascii a + 32 < 256)%nat).
  { apply orb_prop in Hup as [Hup | Hup].
    - apply andb_prop in Hup as [_ Hhi]. apply Nat.leb_le in Hhi. lia.
    - apply andb_prop in Hup as [Hup _]. apply andb_prop in Hup as [_ Hhi].
      apply Nat.leb_le in Hhi. lia. }
  rewrite <- Hb, nat_ascii_embedding by lia.
  replace (nat_of_ascii a + 32 - 32)%nat with (nat_of_ascii a) by lia.
  symmetry. apply ascii_nat_embedding.
Qed.

Ltac spell_out H :=
  repeat match type of H with
    | Py.lower ?s = String _ _ =>
        let c := fresh "c" in
        let Hc := fresh "Hc" in
        destruct s as [| c s]; simpl in H; [discriminate H |];
        injection H as Hc H;
        apply lower_char_inv in Hc; destruct Hc as [-> | ->]
    | Py.lower ?s = EmptyString =>
        destruct s; simpl in H; [clear H | discriminate H]
    end.

(** No spelling of a word of the vocabulary reads as an integer. *)
Lemma vocabulary_not_int (s : string) :
  In (Py.lower s) (truthy ++ falsy) -> Py.int_of_str s = None.
Proof.
  unfold truthy, falsy. simpl.
  intros Hin.
  repeat (destruct Hin as [Hw | Hin];
          [symmetry in Hw; spell_out Hw; vm_compute; reflexivity |]).
  destruct Hin.
Qed.

Lemma str_in_In (s : string) (l : list string) : str_in s l = true <-> In s l.
Proof.
  unfold str_in. rewrite existsb_exists. split.
  - intros (t & Hin & Heq). apply String.eqb_eq in Heq. subst. exact Hin.
  - intros Hin. exists s. split; [exact Hin | apply String.eqb_refl].
Qed.

(** C8: Boolean canonicalization.  A bool is returned unchanged, an int
    maps to [value != 0], none to none, a string of the vocabulary
    yes/y/on/true in any case to [True] and of no/n/off/false to [False], a
    string that reads as an integer goes through that integer, and every
    other string or type fails with [ValidationError]; ["off"] gives
    [False] and ["maybe"] fails. *)
Theorem BooleanNode_canonicalization (opt : bool) (stored : pyval) :
  let convert := validate_and_convert (BooleanNode_on opt stored) in
  (forall b, convert (VBool b) = Ok (VBool b))
  /\ (forall z, convert (VInt z) = Ok (VBool (bool_decide (z <> 0))))
  /\ convert VNone = Ok VNone
  /\ (forall s, In (Py.lower s) ["yes"; "y"; "on"; "true"] ->
        convert (VStr s) = Ok (VBool true))
  /\ (forall s, In (Py.lower s) ["no"; "n"; "off"; "false"] ->
        convert (VStr s) = Ok (VBool false))
  /\ (forall s z, Py.int_of_str s = Some z ->
        convert (VStr s) = Ok (VBool (bool_decide (z <> 0))))
  /\ (forall s, Py.int_of_str s = None ->
        ~ In (Py.lower s) ["yes"; "y"; "on"; "true"; "no"; "n"; "off"; "false"] ->
        exists msg, convert (VStr s) = Err (ValidationError msg))
  /\ (forall v, match v with VFloat _ | VEnum _ _ | VObj _ _ => True | _ => False end ->
        exists msg, convert v = Err (ValidationError msg))
  /\ convert (VStr "off") = Ok (VBool false)
  /\ (exists msg, convert (VStr "maybe") = Err (ValidationError msg)).
Proof.
  assert (Hne : forall z, negb (Z.eqb z 0) = bool_decide (z <> 0)).
  { intros z. destruct (Z.eqb_spec z 0) as [Hz | Hz].
    - rewrite bool_decide_eq_false_2 by (intros Hn; apply Hn; exact Hz). reflexivity.
    - rewrite bool_decide_eq_true_2 by exact Hz. reflexivity. }
  cbv zeta.
  unfold validate_and_convert, BooleanNode_on, BooleanNode_validate_and_convert.
  simpl kind.
  repeat split.
  - intros z. rewrite Hne. reflexivity.
  - intros s Hin.
    rewrite (vocabulary_not_int s) by (apply in_or_app; left; exact Hin).
    apply str_in_In in Hin. unfold truthy. rewrite Hin. reflexivity.
  - intros s Hin.
    rewrite (vocabulary_not_int s) by (apply in_or_app; right; exact Hin).
    destruct (str_in (Py.lower s) truthy) eqn:Ht.
    + exfalso. apply str_in_In in Ht. revert Hin Ht. unfold truthy. simpl.
      intros Hin Ht.
      repeat (destruct Hin as [Hw | Hin];
              [rewrite <- Hw in Ht; simpl in Ht;
               repeat (destruct Ht as [Ht | Ht]; [discriminate Ht |]);
               destruct Ht |]).
      destruct Hin.
    + apply str_in_In in Hin. unfold falsy. rewrite Hin. reflexivity.
  - intros s z ->. rewrite Hne. reflexivity.
  - intros s -> Hout.
    destruct (str_in (Py.lower s) truthy) eqn:Ht.
    { exfalso. apply Hout. apply str_in_In in Ht.
      change (In (Py.lower s) (truthy ++ falsy)). apply in_or_app. left. exact Ht. }
    destruct (str_in (Py.lower s) falsy) eqn:Hf.
    { exfalso. apply Hout. apply str_in_In in Hf.
      change (In (Py.lower s) (truthy ++ falsy)). apply in_or_app. right. exact Hf. }
    eauto.
  - intros v Hv. destruct v; try destruct Hv; eauto.
  - eexists. vm_compute. reflexivity.
Qed.

(** C9: whatever [is_optional] the constructor of [AnyNode] is given, the
    node it returns is optional, so assigning none to it succeeds and
    [value()] is none afterwards. *)
Theorem AnyNode_is_always_optional (v : pyval) (opt : bool) (node : ValueNode) :
  AnyNode_init v opt = Ok node ->
  kind node = AnyNode
  /\ is_optional node = true
  /\ exists node', set_value node VNone = Ok node' /\ value node' = VNone.
Proof.
  unfold AnyNode_init. simpl. intros Hinit.
  assert (Hshape : kind node = AnyNode /\ is_optional node = true).
  { unfold set_value in Hinit. simpl in Hinit.
    destruct (match v with VStr s => _ | _ => false end).
    - inversion Hinit. split; reflexivity.
    - destruct (validate_and_convert _ v); simpl in Hinit; [| discriminate].
      inversion Hinit. split; reflexivity. }
  destruct Hshape as [Hk Ho]. repeat split; try assumption.
  exists (set_val node VNone). split; [| reflexivity].
  unfold set_value. rewrite Ho. simpl.
  unfold validate_and_convert. rewrite Hk. reflexivity.
Qed.

(** C10: a [FloatNode] compared with the raw value none is equal exactly
    when it stores none, and two [FloatNode] objects that both store none
    compare unequal. *)
Theorem FloatNode_eq_on_none :
  (forall opt stored,
     FloatNode_eq {| kind := FloatNode; is_optional := opt; val := stored |} (OVal VNone)
     = bool_decide (stored = VNone))
  /\ (forall opt1 opt2,
        FloatNode_eq {| kind := FloatNode; is_optional := opt1; val := VNone |}
          (ONode (NValue {| kind := FloatNode; is_optional := opt2; val := VNone |}))
        = false).
Proof.
  split.
  - intros opt stored. unfold FloatNode_eq. simpl.
    destruct stored; reflexivity.
  - intros opt1 opt2. reflexivity.
Qed.

End NodeProperties.

(** * Properties of the sequence container *)

Section ReadOnlyAndInsert.
Context `{Externals}.

Lemma readonly_set_content (self : ListConfig) (c : list Node) :
  readonly (set_content self c) = readonly self.
Proof. reflexivity. Qed.

Lemma readonly_of_flag (self : ListConfig) :
  _get_flag self "readonly" = Some true -> readonly self = true.
Proof. unfold readonly. intros ->. reflexivity. Qed.

Lemma set_content_same (self : ListConfig) : set_content self (content self) = self.
Proof. destruct self. reflexivity. Qed.

(** C2, as the code has it: on a container whose read-only flag is set,
    locally or through an ancestor, no mutating operation changes the
    container.  [set_item] with an integer index, [append], [insert], [pop],
    [clear], [remove] of an element that is present and [extend] with at
    least one element raise [ReadonlyConfigError] with the path built from
    the index of the call (for [pop] of the last element, from the empty
    key); [sort] raises [ReadonlyConfigError] without a path; [set_item]
    with an index that is not an integer raises [UnsupportedKeyType],
    [remove] of an absent element raises [ValueError], and [extend] with
    nothing to add returns. *)
Theorem readonly_container_is_not_mutated (self : ListConfig) (m : Mutation) :
  _get_flag self "readonly" = Some true ->
  call m self = refusal self m /\ state_of (call m self) = self.
Proof.
  intros Hflag. apply readonly_of_flag in Hflag as Hro.
  assert (Hcall : call m self = refusal self m).
  { destruct m as [idx v | item | i item | i | key rev | x | | lst]; simpl.
    - unfold __setitem__, _set_at_index. rewrite Hro. destruct idx; reflexivity.
    - unfold append. rewrite Hro. reflexivity.
    - unfold insert. rewrite Hro. reflexivity.
    - unfold pop. rewrite Hro. simpl.
      destruct (Z.eqb_spec i (-1)) as [Hi | Hi].
      + rewrite bool_decide_eq_true_2 by exact Hi. reflexivity.
      + rewrite bool_decide_eq_false_2 by exact Hi. reflexivity.
    - unfold sort. rewrite Hro. reflexivity.
    - unfold remove, index.
      destruct (PyList.find_index _ _); [| reflexivity].
      unfold __delitem__. rewrite Hro. reflexivity.
    - unfold clear, __delitem__. rewrite Hro. reflexivity.
    - destruct lst; [reflexivity |]. simpl. unfold append. rewrite Hro. reflexivity. }
  split; [exact Hcall |].
  rewrite Hcall. unfold refusal.
  destruct m as [idx v | item | i item | i | key rev | x | | lst];
    try reflexivity.
  - destruct idx; reflexivity.
  - destruct (index x self); reflexivity.
  - destruct lst; reflexivity.
Qed.

(** *** [insert] *)

Lemma position_in_range (len : nat) (i : Z) :
  0 <= i < Z.of_nat len -> PyList.position len i = Some (Z.to_nat i).
Proof.
  intros Hi. unfold PyList.position.
  destruct (Z.leb_spec 0 i); [| lia]. destruct (Z.ltb_spec i (Z.of_nat len)); [| lia].
  reflexivity.
Qed.

Lemma position_beyond (len : nat) (i : Z) :
  Z.of_nat len <= i -> PyList.position len i = None.
Proof.
  intros Hi. unfold PyList.position.
  destruct (Z.leb_spec 0 i); [| lia]. destruct (Z.ltb_spec i (Z.of_nat len)); [lia |].
  simpl. destruct (Z.leb_spec (- Z.of_nat len) i); [| lia].
  destruct (Z.ltb_spec i 0); [lia |]. reflexivity.
Qed.

Lemma insert_beyond {A} (i : Z) (x : A) (l : list A) :
  Z.of_nat (List.length l) <= i -> PyList.insert i x l = (l ++ [x])%list.
Proof.
  intros Hi. unfold PyList.insert, PyList.insert_position.
  destruct (Z.ltb_spec i 0); [lia |].
  rewrite Z.min_r by lia. rewrite Nat2Z.id.
  rewrite take_ge, drop_ge by lia. reflexivity.
Qed.

Lemma AnyNode_none : AnyNode_init VNone true = Ok placeholder.
Proof. reflexivity. Qed.

Lemma _set_at_index_beyond (i : Z) (item : pyobj) (self : ListConfig) :
  readonly self = false -> __len__ self <= i ->
  exists e, _set_at_index (VInt i) item self = Raise e self.
Proof.
  intros Hro Hi. unfold _set_at_index. rewrite Hro.
  set (value := match item with
                | ONode (NList items et fl) => ONode (deepcopy (NList items et fl))
                | _ => item
                end).
  unfold _set_item_impl.
  destruct (_maybe_wrap (_element_type self) value true) as [node | e].
  - unfold PyList.setitem. rewrite position_beyond by exact Hi. simpl. eauto.
  - destruct e; eauto.
Qed.

(** C3, where the code departs from it: when the index lies beyond the end
    of a container that is not read-only, [insert] puts the placeholder at
    the end, fails to assign at the index, fails again to delete at the
    index, and so ends with [IndexError] and the placeholder still in the
    container: one element more than before the call. *)
Theorem insert_beyond_end_keeps_placeholder
    (self : ListConfig) (index : Z) (item : pyobj) :
  readonly self = false ->
  __len__ self < index ->
  insert index item self
  = Raise (IndexError "list assignment index out of range")
      (set_content self (content self ++ [NValue placeholder])%list)
  /\ length (content (state_of (insert index item self)))
     = S (length (content self)).
Proof.
  intros Hro Hi. unfold __len__ in Hi.
  assert (Hins : insert index item self
                 = Raise (IndexError "list assignment index out of range")
                     (set_content self (content self ++ [NValue placeholder])%list)).
  { unfold insert. rewrite Hro, AnyNode_none.
    rewrite insert_beyond by lia.
    destruct (_set_at_index_beyond index item
                (set_content self (content self ++ [NValue placeholder])%list))
      as [e ->].
    - exact Hro.
    - unfold __len__. simpl. rewrite length_app. simpl. lia.
    - unfold PyList.delitem. simpl content.
      rewrite position_beyond by (rewrite length_app; simpl; lia).
      reflexivity. }
  split; [exact Hins |].
  rewrite Hins. simpl. rewrite length_app. simpl. lia.
Qed.

(** Within the list, [insert] keeps its promise: the element is stored at
    the index, or the container is as before and the exception is the one
    the assignment raised. *)
Lemma insert_in_range_is_transactional
    (self : ListConfig) (index : Z) (item : pyobj) :
  readonly self = false ->
  0 <= index <= __len__ self ->
  (exists node,
      insert index item self
      = Return tt (set_content self
                     (take (Z.to_nat index) (content self)
                      ++ node :: drop (Z.to_nat index) (content self))))
  \/ (exists e, insert index item self = Raise e self).
Proof.
  intros Hro Hi. unfold __len__ in Hi.
  unfold insert. rewrite Hro, AnyNode_none.
  set (p := Z.to_nat index).
  assert (Hp : (p <= length (content self))%nat) by lia.
  assert (Hins : PyList.insert index (NValue placeholder) (content self)
                 = (take p (content self) ++ NValue placeholder :: drop p (content self))%list).
  { unfold PyList.insert, PyList.insert_position.
    destruct (Z.ltb_spec index 0); [lia |]. rewrite Z.min_l by lia. reflexivity. }
  rewrite Hins.
  set (c1 := (take p (content self) ++ NValue placeholder :: drop p (content self))%list).
  assert (Hlen : length c1 = S (length (content self))).
  { unfold c1. rewrite length_app, length_take. simpl. rewrite length_drop. lia. }
  assert (Hpos : PyList.position (length c1) index = Some p).
  { apply position_in_range. lia. }
  assert (Hlp : List.length (take p (content self)) = p).
  { rewrite length_take. lia. }
  assert (Hdel : delete p c1 = content self).
  { pose proof (delete_middle (take p (content self)) (drop p (content self))
                  (NValue placeholder)) as Hd.
    rewrite Hlp in Hd. unfold c1. rewrite Hd. apply take_drop. }
  assert (Hback : forall e,
    match PyList.delitem index (content (set_content self c1)) with
    | Some c => Raise e (set_content (set_content self c1) c)
    | None => Raise (IndexError "list assignment index out of range")
                (set_content self c1)
    end = (Raise e self : Outcome unit)).
  { intros e. unfold PyList.delitem. simpl content. rewrite Hpos. simpl.
    rewrite Hdel. unfold set_content. simpl. destruct self. reflexivity. }
  unfold _set_at_index. rewrite readonly_set_content, Hro.
  set (value := match item with
                | ONode (NList items et fl) => ONode (deepcopy (NList items et fl))
                | _ => item
                end).
  unfold _set_item_impl. simpl _element_type.
  destruct (_maybe_wrap (_element_type self) value true) as [node | e].
  - left. exists node. unfold PyList.setitem. simpl content. rewrite Hpos. simpl.
    unfold set_content. simpl. f_equal. f_equal.
    unfold c1. rewrite insert_app_r_alt by (rewrite Hlp; lia).
    rewrite Hlp, Nat.sub_diag. reflexivity.
  - right. exists (match e with
                    | UnsupportedValueType _ =>
                        UnsupportedValueType
                          ("key " ++ get_full_key (set_content self c1)
                             (py_str (VInt index)) ++ ": "
                           ++ obj_type_name value ++ " is not a supported type")
                    | _ => e
                    end).
    destruct e; apply Hback.
Qed.

End ReadOnlyAndInsert.

Section AppendAndFailure.
Context `{Externals}.

(** *** Appending and iterating *)







(** *** What a failed call leaves behind *)

Lemma extend_failure (lst : list pyobj) (self self' : ListConfig) (e : Exc) :
  extend lst self = Raise e self' ->
  exists appended x rest,
    lst = (appended ++ x :: rest)%list
    /\ extend appended self = Return tt self'
    /\ append x self' = Raise e self'.
Proof.
  revert self. induction lst as [| x lst IH]; intros self Hext; simpl in Hext.
  - discriminate.
  - destruct (append x self) as [[] self1 | e1 self1] eqn:Happ.
    + destruct (IH _ Hext) as (appended & y & rest & -> & Hdone & Hfail).
      exists (x :: appended), y, rest. split; [reflexivity |].
      split; [| exact Hfail]. simpl. rewrite Happ. exact Hdone.
    + inversion Hext; subst e1 self1.
      assert (Hsame : self' = self).
      { unfold append in Happ. destruct (readonly self); [congruence |].
        destruct (_maybe_wrap _ x true) as [node | e0]; [discriminate |].
        destruct e0; congruence. }
      subst self'.
      exists [], x, lst. repeat split. exact Happ.
Qed.

Lemma insert_sorted_Permutation {A} (x : pyval * A) (s : list (pyval * A)) :
  (PyList.insert_sorted x s).1 ≡ₚ x :: s.
Proof.
  induction s as [| y s IH]; simpl; [reflexivity |].
  destruct (py_lt y.1 x.1) as [[] |]; simpl; try reflexivity.
  destruct (PyList.insert_sorted x s) as [r e']. simpl in *.
  rewrite IH. apply Permutation_swap.
Qed.

Lemma insertion_sort_Permutation {A} (l : list (pyval * A)) :
  (PyList.insertion_sort l).1 ≡ₚ l.
Proof.
  induction l as [| x l IH]; simpl; [reflexivity |].
  destruct (PyList.insertion_sort l) as [s [e |]]; simpl in *.
  - rewrite IH. reflexivity.
  - rewrite insert_sorted_Permutation, IH. reflexivity.
Qed.

Lemma decorate_snd {A} (key : A -> result pyval) (l : list A) d :
  PyList.decorate key l = Ok d -> map snd d = l.
Proof.
  revert d. induction l as [| x l IH]; intros d Hd; simpl in Hd.
  - inversion Hd. reflexivity.
  - destruct (key x) as [k |]; [| discriminate]. simpl in Hd.
    destruct (PyList.decorate key l) as [d' |]; [| discriminate]. simpl in Hd.
    inversion Hd. simpl. rewrite (IH d' eq_refl). reflexivity.
Qed.

Lemma sort_Permutation {A} (key : A -> result pyval) (reverse : bool) (l : list A) :
  (PyList.sort key reverse l).1 ≡ₚ l.
Proof.
  unfold PyList.sort.
  destruct (PyList.decorate key l) as [d |] eqn:Hd; [| reflexivity].
  apply decorate_snd in Hd.
  pose proof (insertion_sort_Permutation (if reverse then rev d else d)) as Hp.
  destruct (PyList.insertion_sort (if reverse then rev d else d)) as [s e].
  simpl in *. rewrite <- Hd.
  apply Permutation_map.
  destruct reverse.
  - rewrite <- Permutation_rev. rewrite Hp. symmetry. apply Permutation_rev.
  - exact Hp.
Qed.

(** C5, as the code has it: a call of the write path other than [insert],
    [extend], [pop] and [sort] that raises leaves the container as it was.
    A failing [extend] has appended the elements before the one that
    failed; a [pop] that fails on the read-only flag or on its index has
    changed nothing; a failing [sort] has changed nothing when it fails on
    the read-only flag and has at most rearranged the elements otherwise. *)
Theorem failed_call_effect (m : Mutation) (e : Exc) (self self' : ListConfig) :
  call m self = Raise e self' ->
  after_failure m e self self'.
Proof.
  destruct m as [idx v | item | i item | i | key rev | x | | lst];
    simpl; intros Hcall.
  - unfold __setitem__, _set_at_index in Hcall.
    destruct (match idx with VInt _ | VBool _ => _ | _ => None end);
      [| congruence].
    destruct (readonly self); [congruence |].
    unfold _set_item_impl in Hcall.
    destruct (_maybe_wrap _ _ true) as [node | e0].
    + destruct (PyList.setitem _ node _); [discriminate | congruence].
    + destruct e0; congruence.
  - unfold append in Hcall. destruct (readonly self); [congruence |].
    destruct (_maybe_wrap _ item true) as [node | e0]; [discriminate |].
    destruct e0; congruence.
  - exact I.
  - unfold pop in Hcall.
    destruct (readonly self); [intros _; simpl in Hcall; congruence |].
    destruct (PyList.pop i (content self)) as [[node rest] |] eqn:Hpop.
    + intros [Hro | Hnone]; discriminate.
    + intros _. simpl in Hcall. congruence.
  - unfold sort in Hcall. destruct (readonly self) eqn:Hro.
    + inversion Hcall; subst. split; [reflexivity | reflexivity].
    + pose proof (sort_Permutation (key1 key) rev (content self)) as Hp.
      destruct (PyList.sort (key1 key) rev (content self)) as [c [e0 |]];
        [| discriminate].
      inversion Hcall; subst e0 self'. simpl in *. split; [exact Hp | discriminate].
  - unfold remove in Hcall. destruct (index x self) as [i |]; [| congruence].
    unfold __delitem__ in Hcall. destruct (readonly self); [congruence |].
    destruct (PyList.delitem i (content self)); [discriminate | congruence].
  - unfold clear, __delitem__ in Hcall.
    destruct (readonly self); [congruence | discriminate].
  - apply extend_failure. exact Hcall.
Qed.

End AppendAndFailure.

Section SortProperties.
Context `{Externals}.

(** *** [sort] *)

Lemma xcompare_antisym (a b : Py.xnum) :
  Py.xcompare a b = Some Lt -> Py.xcompare b a = Some Gt.
Proof.
  destruct a as [| s | m1 e1], b as [| t | m2 e2]; simpl; try discriminate.
  - destruct s, t; simpl; congruence.
  - destruct s; congruence.
  - destruct t; congruence.
  - intros Hlt. inversion Hlt as [Hc]. rewrite (Z.min_comm e2 e1).
    rewrite Z.compare_antisym, Hc. reflexivity.
Qed.

(** When Python finds [a < b] it does not find [b < a]. *)
Lemma py_lt_asym (a b : pyval) : py_lt a b = Ok true -> py_lt b a = Ok false.
Proof.
  unfold py_lt.
  destruct (to_xnum a) as [x |] eqn:Ha, (to_xnum b) as [y |] eqn:Hb.
  - destruct (Py.xcompare x y) as [[] |] eqn:Hc; try discriminate.
    rewrite (xcompare_antisym _ _ Hc). reflexivity.
  - destruct a, b; try discriminate.
  - destruct a, b; try discriminate.
  - destruct a, b; try discriminate.
    unfold String.ltb. rewrite (String.compare_antisym s0 s).
    destruct (String.compare s s0); simpl; congruence.
Qed.

Section Decorated.
Context {A : Type}.

Lemma insert_sorted_HdRel (z x : pyval * A) (s : list (pyval * A)) :
  key_ordered z x -> HdRel key_ordered z s ->
  HdRel key_ordered z (PyList.insert_sorted x s).1.
Proof.
  intros Hzx Hzs. destruct s as [| y s]; simpl.
  - constructor. exact Hzx.
  - destruct (py_lt y.1 x.1) as [[] |]; simpl.
    + destruct (PyList.insert_sorted x s). simpl. constructor.
      apply HdRel_inv in Hzs. exact Hzs.
    + constructor. exact Hzx.
    + constructor. exact Hzx.
Qed.

Lemma insert_sorted_Sorted (x : pyval * A) (s r : list (pyval * A)) :
  Sorted key_ordered s ->
  PyList.insert_sorted x s = (r, None) ->
  Sorted key_ordered r.
Proof.
  intros Hs. revert r. induction Hs as [| y s Hs IH Hhd]; intros r Hr; simpl in Hr.
  - inversion Hr. repeat constructor.
  - destruct (py_lt y.1 x.1) as [[] |] eqn:Hlt.
    + pose proof (insert_sorted_HdRel y x s (py_lt_asym _ _ Hlt) Hhd) as Hhd'.
      destruct (PyList.insert_sorted x s) as [r' e']. inversion Hr; subst.
      constructor; [apply IH; reflexivity | exact Hhd'].
    + inversion Hr; subst. constructor; [constructor; assumption |].
      constructor. exact Hlt.
    + discriminate.
Qed.

Lemma insertion_sort_Sorted (l s : list (pyval * A)) :
  PyList.insertion_sort l = (s, None) -> Sorted key_ordered s.
Proof.
  revert s. induction l as [| x l IH]; intros s Hs; simpl in Hs.
  - inversion Hs. constructor.
  - destruct (PyList.insertion_sort l) as [s' [e |]]; [discriminate |].
    eapply insert_sorted_Sorted; [apply IH; reflexivity | exact Hs].
Qed.

Lemma decorate_keys (key : A -> result pyval) (l : list A) d :
  PyList.decorate key l = Ok d -> Forall (fun p => key p.2 = Ok p.1) d.
Proof.
  revert d. induction l as [| x l IH]; intros d Hd; simpl in Hd.
  - inversion Hd. constructor.
  - destruct (key x) as [k |] eqn:Hk; [| discriminate]. simpl in Hd.
    destruct (PyList.decorate key l) as [d' |]; [| discriminate]. simpl in Hd.
    inversion Hd. constructor; [exact Hk | apply IH; reflexivity].
Qed.
End Decorated.







End SortProperties.

(** * The model at concrete inputs *)

Section Runs.
#[local] Existing Instance sample_externals.

Example int_of_str_runs :
  Py.int_of_str " -1_000 " = Some (-1000) /\ Py.int_of_str "1__0" = None
  /\ Py.int_of_str "off" = None /\ Py.int_of_str "" = None
  /\ Py.int_of_str "+07" = Some 7 /\ Py.int_of_str "1_" = None.
Proof. vm_compute. repeat split. Qed.

Example py_eq_runs :
  py_eq (VInt 1) (VBool true) = true
  /\ py_eq (VFloat S754_nan) (VFloat S754_nan) = false
  /\ py_eq (VInt 3) (VFloat (S754_finite false 3 0)) = true
  /\ py_eq (VStr "1") (VInt 1) = false
  /\ Py.float_of_int 3 = Some (S754_finite false 6755399441055744 (-51)).
Proof. vm_compute. repeat split. Qed.

Example enum_alias_runs :
  validate_and_convert color_node (VStr "Color.CRIMSON") = Ok (VEnum Color "RED")
  /\ validate_and_convert color_node (VInt 2) = Ok (VEnum Color "BLUE")
  /\ validate_and_convert color_node (VStr "BLUE") = Ok (VEnum Color "BLUE").
Proof. vm_compute. repeat split. Qed.

(** Scenario B of the specification: a list of integers coerces ["5"]. *)
Example append_coerces :
  append (OVal (VStr "5")) no_ints
  = Return tt (set_content no_ints
                 [NValue {| kind := IntegerNode; is_optional := true; val := VInt 5 |}]).
Proof. vm_compute. reflexivity. Qed.

Lemma set_value_cases_witness :
  set_value required_int (VStr "???")
  = Ok {| kind := IntegerNode; is_optional := false; val := VStr "???" |}
  /\ (exists msg, set_value required_int VNone = Err (ValidationError msg))
  /\ set_value required_int (VStr "12")
     = Ok {| kind := IntegerNode; is_optional := false; val := VInt 12 |}.
Proof.
  split; [| split].
  - apply (proj1 (set_value_cases required_int (VStr "???")) "???" eq_refl).
    right. reflexivity.
  - assert (Hplain : forall s, VNone = VStr s ->
              get_value_kind s <> INTERPOLATION
              /\ get_value_kind s <> MANDATORY_MISSING)
      by (intros s Hs; discriminate Hs).
    destruct (proj2 (set_value_cases required_int VNone) Hplain) as [Hnone _].
    apply Hnone; reflexivity.
  - assert (Hplain : forall s, VStr "12" = VStr s ->
              get_value_kind s <> INTERPOLATION
              /\ get_value_kind s <> MANDATORY_MISSING).
    { intros s Hs. injection Hs as <-.
      split; intros Hk; vm_compute in Hk; discriminate Hk. }
    destruct (proj2 (set_value_cases required_int (VStr "12")) Hplain) as [_ Hconv].
    apply Hconv.
    + intros [Hn _]. discriminate Hn.
    + vm_compute. reflexivity.
Defined.

Lemma validate_and_convert_idempotent_witness :
  kind_wf (kind color_node)
  /\ validate_and_convert color_node (VStr "Color.CRIMSON") = Ok (VEnum Color "RED")
  /\ validate_and_convert color_node (VEnum Color "RED") = Ok (VEnum Color "RED").
Proof.
  assert (Hwf : kind_wf (kind color_node)).
  { simpl. unfold enum_wf. apply (bool_decide_unpack _). vm_compute. exact I. }
  assert (Hrun : validate_and_convert color_node (VStr "Color.CRIMSON")
                 = Ok (VEnum Color "RED")) by (vm_compute; reflexivity).
  split; [exact Hwf |]. split; [exact Hrun |].
  exact (validate_and_convert_idempotent color_node _ _ Hwf Hrun).
Defined.

Lemma BooleanNode_canonicalization_witness :
  validate_and_convert (BooleanNode_on true VNone) (VStr "Yes") = Ok (VBool true)
  /\ validate_and_convert (BooleanNode_on true VNone) (VStr " 0 ") = Ok (VBool false)
  /\ exists msg,
       validate_and_convert (BooleanNode_on true VNone) (VStr "maybe")
       = Err (ValidationError msg).
Proof.
  pose proof (BooleanNode_canonicalization true VNone)
    as (_ & _ & _ & Hyes & _ & Hnum & Hbad & _). cbv zeta in *.
  split; [| split].
  - apply Hyes. left. reflexivity.
  - rewrite (Hnum " 0 " 0) by (vm_compute; reflexivity). reflexivity.
  - apply Hbad; [vm_compute; reflexivity |].
    vm_compute. intros Hin.
    repeat (destruct Hin as [Hw | Hin]; [discriminate Hw |]). exact Hin.
Defined.

Lemma AnyNode_is_always_optional_witness :
  AnyNode_init (VInt 3) false = Ok (any_node (VInt 3))
  /\ is_optional (any_node (VInt 3)) = true
  /\ exists node', set_value (any_node (VInt 3)) VNone = Ok node' /\ value node' = VNone.
Proof.
  assert (Hinit : AnyNode_init (VInt 3) false = Ok (any_node (VInt 3)))
    by reflexivity.
  split; [exact Hinit |].
  exact (proj2 (AnyNode_is_always_optional (VInt 3) false _ Hinit)).
Defined.

Lemma readonly_container_is_not_mutated_witness :
  _get_flag frozen "readonly" = Some true
  /\ call (Append (OVal (VInt 3))) frozen
     = Raise (ReadonlyConfigError (Some "servers.2")) frozen
  /\ state_of (call (Append (OVal (VInt 3))) frozen) = frozen.
Proof.
  assert (Hflag : _get_flag frozen "readonly" = Some true)
    by (vm_compute; reflexivity).
  split; [exact Hflag |].
  exact (readonly_container_is_not_mutated frozen (Append (OVal (VInt 3))) Hflag).
Defined.

(** C2 as stated fails: under a read-only root [sort] raises a
    [ReadonlyConfigError] that carries no path, [extend] with nothing to
    add does not raise, [remove] of an absent element raises [ValueError],
    and [set_item] with a key that is not an integer raises
    [UnsupportedKeyType]. *)
Lemma readonly_without_path_error :
  _get_flag frozen "readonly" = Some true
  /\ call (Sort None false) frozen = Raise (ReadonlyConfigError None) frozen
  /\ call (Extend []) frozen = Return tt frozen
  /\ call (Remove (VInt 9)) frozen
     = Raise (ValueError "Item not found in ListConfig") frozen
  /\ call (SetItem (VStr "0") (OVal (VInt 9))) frozen
     = Raise (UnsupportedKeyType "Key type str is not an int") frozen.
Proof. vm_compute. repeat split. Qed.

Lemma insert_beyond_end_keeps_placeholder_witness :
  readonly one_two = false
  /\ __len__ one_two < 5
  /\ insert 5 (OVal (VInt 3)) one_two
     = Raise (IndexError "list assignment index out of range")
         (set_content one_two
            [NValue (any_node (VInt 1)); NValue (any_node (VInt 2));
             NValue placeholder])
  /\ List.length (content (state_of (insert 5 (OVal (VInt 3)) one_two))) = 3%nat.
Proof.
  assert (Hro : readonly one_two = false) by (vm_compute; reflexivity).
  assert (Hlen : __len__ one_two < 5) by (vm_compute; reflexivity).
  split; [exact Hro |]. split; [exact Hlen |].
  exact (insert_beyond_end_keeps_placeholder one_two 5 (OVal (VInt 3)) Hro Hlen).
Defined.

(** With a negative index the placeholder lands before the last element
    and the rollback deletes that element instead of the placeholder. *)
Example insert_negative_index_runs :
  insert (-1) an_object one_two
  = Raise (UnsupportedValueType "key -1: object is not a supported type")
      (set_content one_two [NValue (any_node (VInt 1)); NValue placeholder]).
Proof. vm_compute. reflexivity. Qed.

Lemma failed_call_effect_witness :
  call (Append an_object) one_two
  = Raise (UnsupportedValueType "key 2: object is not a supported type") one_two
  /\ after_failure (Append an_object)
       (UnsupportedValueType "key 2: object is not a supported type") one_two one_two.
Proof.
  assert (Hcall : call (Append an_object) one_two
                  = Raise (UnsupportedValueType "key 2: object is not a supported type")
                      one_two) by (vm_compute; reflexivity).
  split; [exact Hcall |].
  exact (failed_call_effect _ _ _ _ Hcall).
Defined.

(** C5 as stated fails: [extend] that meets an unsupported value has
    already appended the values before it, and [pop] whose read hook
    refuses the element has already removed it. *)
Lemma failed_extend_and_pop_mutate :
  call (Extend [OVal (VInt 7); an_object]) one_two
  = Raise (UnsupportedValueType "key 3: object is not a supported type")
      (set_content one_two
         [NValue (any_node (VInt 1)); NValue (any_node (VInt 2));
          NValue (any_node (VInt 7))])
  /\ call (Pop (-1)) missing_last
     = Raise (MissingMandatoryValue "-1")
         (set_content missing_last [NValue (any_node (VInt 1))]).
Proof. vm_compute. split; reflexivity. Qed.




End Runs.

(** * More properties of the scalar nodes *)

Section MoreNodeProperties.
Context `{Externals}.

(** *** What an assignment leaves in a node *)

Lemma enum_getitem_in_fields ty key name :
  enum_getitem ty key = Some name -> in_fields name ty = true.
Proof.
  unfold enum_getitem, enum_call, in_fields, fields. intros Hg.
  destruct (enum_member_value ty key) as [v |]; [| discriminate]. simpl in Hg.
  destruct (List.find _ (enum_defs ty)) as [d |] eqn:Hf; [| discriminate].
  inversion Hg; subst name. apply find_some in Hf as [Hin _].
  apply existsb_exists. exists d. split; [exact Hin | apply String.eqb_refl].
Qed.

Lemma enum_call_in_fields ty v name :
  enum_call ty v = Some name -> in_fields name ty = true.
Proof.
  unfold enum_call, in_fields, fields. intros Hc.
  destruct (List.find _ (enum_defs ty)) as [d |] eqn:Hf; [| discriminate].
  inversion Hc; subst name. apply find_some in Hf as [Hin _].
  apply existsb_exists. exists d. split; [exact Hin | apply String.eqb_refl].
Qed.

Lemma EnumNode_converted ty x y :
  EnumNode_validate_and_convert ty x = Ok y ->
  (x = VNone /\ y = VNone)
  \/ (x <> VNone /\ exists name, y = VEnum ty name /\ in_fields name ty = true).
Proof.
  unfold EnumNode_validate_and_convert. intros Hx.
  destruct x; try (left; split; congruence);
    (destruct (negb _ && negb _); [discriminate |]);
    match type of Hx with
    | (?m ≫= _) = _ => destruct m as [k |] eqn:Hkey; [| discriminate]
    end; simpl in Hx;
    (destruct (in_fields k ty); [| discriminate]);
    (destruct (enum_getitem ty k) as [member |] eqn:Hg; [| discriminate]);
    right; (split; [discriminate |]); exists member;
    (split; [congruence | eapply enum_getitem_in_fields; exact Hg]).
Qed.

Lemma converted_is_canonical (self : ValueNode) (v r : pyval) :
  validate_and_convert self v = Ok r ->
  canonical (kind self) r /\ (v <> VNone -> r <> VNone).
Proof.
  unfold validate_and_convert, canonical. intros Hv.
  destruct (kind self) as [| | | | | ty].
  - unfold AnyNode_validate_and_convert in Hv.
    destruct (_is_primitive_type v) eqn:Hp; simpl in Hv; [| discriminate].
    inversion Hv; subst r. split; [exact Hp | auto].
  - unfold StringNode_validate_and_convert in Hv.
    destruct v; simpl in Hv; inversion Hv; subst r;
      (split; [eauto | intros Hn; try congruence]).
  - unfold IntegerNode_validate_and_convert in Hv.
    destruct v; try discriminate.
    + inversion Hv. split; [left; reflexivity | congruence].
    + inversion Hv. split; [eauto | discriminate].
    + destruct (Py.int_of_str s); inversion Hv. split; [eauto | discriminate].
  - unfold FloatNode_validate_and_convert in Hv.
    destruct v; try discriminate.
    + inversion Hv. split; [left; reflexivity | congruence].
    + destruct (Py.float_of_int z); inversion Hv. split; [eauto | discriminate].
    + inversion Hv. split; [eauto | discriminate].
    + destruct (float_of_str s); inversion Hv. split; [eauto | discriminate].
  - unfold BooleanNode_validate_and_convert in Hv.
    destruct v; try discriminate.
    + inversion Hv. split; [left; reflexivity | congruence].
    + inversion Hv. split; [eauto | discriminate].
    + inversion Hv. split; [eauto | discriminate].
    + destruct (Py.int_of_str s); [inversion Hv; split; [eauto | discriminate] |].
      destruct (str_in _ truthy); [inversion Hv; split; [eauto | discriminate] |].
      destruct (str_in _ falsy); inversion Hv. split; [eauto | discriminate].
  - destruct (EnumNode_converted _ _ _ Hv) as [[-> ->] | [Hx (name & -> & Hin)]].
    + split; [left; reflexivity | congruence].
    + split; [right; eauto | discriminate].
Qed.

(** X1: an assignment that succeeds never changes the class or the
    optional flag of the node; what it stores is either a placeholder string
    kept as given or the canonical form of the node's kind (an int for an
    IntegerNode, a member of the bound enum for an EnumNode, and so on, or
    none); and a node that is not optional never ends up holding none. *)
Theorem set_value_keeps_node_well_typed (self self' : ValueNode) (v : pyval) :
  set_value self v = Ok self' ->
  kind self' = kind self
  /\ is_optional self' = is_optional self
  /\ (deferred (val self') \/ canonical (kind self) (val self'))
  /\ (is_optional self = false -> val self' <> VNone).
Proof.
  unfold set_value. intros Hset.
  destruct (match v with VStr s => _ | _ => false end) eqn:Hdefer.
  - inversion Hset; subst self'. simpl.
    destruct v; try discriminate.
    split; [reflexivity |]. split; [reflexivity |]. split; [| discriminate].
    left. exists s. split; [reflexivity |].
    destruct (get_value_kind s); [discriminate | right | left]; reflexivity.
  - destruct (negb (is_optional self) && is_none v) eqn:Hguard; [discriminate |].
    destruct (validate_and_convert self v) as [r |] eqn:Hconv; [| discriminate].
    simpl in Hset. inversion Hset; subst self'. simpl.
    destruct (converted_is_canonical _ _ _ Hconv) as [Hcan Hnone].
    split; [reflexivity |]. split; [reflexivity |]. split; [right; exact Hcan |].
    intros Hopt. apply Hnone. intros ->. rewrite Hopt in Hguard. discriminate.
Qed.

(** *** Spelling an enum member *)

Lemma prefix_app (p s : string) : String.prefix p (p ++ s) = true.
Proof.
  induction p as [| c p IH]; simpl; [destruct s; reflexivity |].
  destruct (ascii_dec c c) as [_ | Hne]; [exact IH | destruct Hne; reflexivity].
Qed.

Lemma drop_prefix_app (p s : string) : Py.drop_prefix (String.length p) (p ++ s) = s.
Proof. induction p as [| c p IH]; simpl; [reflexivity | exact IH]. Qed.

(** X2: for an EnumNode a string that carries the class name and a dot in
    front of a name is read exactly as the bare name is, member or error,
    as long as the bare name does not itself start with that prefix. *)
Theorem EnumNode_class_prefix_is_optional (ty : EnumType) (s : string) :
  String.prefix (enum_name ty ++ ".") s = false ->
  EnumNode_validate_and_convert ty (VStr ((enum_name ty ++ ".") ++ s))
  = EnumNode_validate_and_convert ty (VStr s).
Proof.
  intros Hbare. unfold EnumNode_validate_and_convert. simpl.
  rewrite prefix_app, drop_prefix_app, Hbare. reflexivity.
Qed.

Lemma find_finds {A} (p : A -> bool) (l : list A) (d : A) :
  In d l -> p d = true -> exists d', List.find p l = Some d'.
Proof.
  induction l as [| x l IH]; intros Hin Hp; [destruct Hin |]. simpl.
  destruct (p x) eqn:Hx; [eauto |].
  destruct Hin as [-> | Hin]; [congruence | apply IH; assumption].
Qed.

(** X3: in an enum class that defines no name twice, a name (alias or
    not), the integer value defined for it, and the member itself are all
    converted to one and the same member, the first one defined with that
    value. *)
Theorem EnumNode_spellings_agree (ty : EnumType) (name : string) (z : Z) :
  enum_wf ty ->
  enum_member_value ty name = Some (EnumInt z) ->
  String.prefix (enum_name ty ++ ".") name = false ->
  exists member,
    enum_call ty (EnumInt z) = Some member
    /\ enum_member_value ty member = Some (EnumInt z)
    /\ EnumNode_validate_and_convert ty (VStr name) = Ok (VEnum ty member)
    /\ EnumNode_validate_and_convert ty (VInt z) = Ok (VEnum ty member)
    /\ EnumNode_validate_and_convert ty (VEnum ty member) = Ok (VEnum ty member).
Proof.
  intros Hwf Hval Hbare.
  assert (Hcall : exists member, enum_call ty (EnumInt z) = Some member).
  { unfold enum_member_value in Hval.
    destruct (List.find _ (enum_defs ty)) as [d |] eqn:Hf; [| discriminate].
    simpl in Hval. apply find_some in Hf as [Hin _].
    destruct (find_finds (fun d => bool_decide (d.2 = EnumInt z)) _ d Hin)
      as [d' Hd'].
    - apply bool_decide_eq_true_2. congruence.
    - exists d'.1. unfold enum_call. rewrite Hd'. reflexivity. }
  destruct Hcall as [member Hcall]. exists member.
  destruct (enum_call_stable _ _ _ Hwf Hcall) as [Hin Hget].
  assert (Hmv : enum_member_value ty member = Some (EnumInt z)).
  { unfold enum_call in Hcall.
    destruct (List.find _ (enum_defs ty)) as [[n w] |] eqn:Hf; [| discriminate].
    simpl in Hcall. inversion Hcall; subst n.
    apply find_some in Hf as [Hd Hw]. simpl in Hw.
    apply bool_decide_eq_true in Hw. subst w.
    unfold enum_member_value. rewrite (find_by_name_unique _ _ _ Hwf Hd).
    reflexivity. }
  assert (Hname : enum_getitem ty name = Some member).
  { unfold enum_getitem. rewrite Hval. exact Hcall. }
  split; [exact Hcall |]. split; [exact Hmv |].
  unfold EnumNode_validate_and_convert. simpl. split; [| split].
  - rewrite Hbare, Hname. simpl. rewrite Hin, Hget. reflexivity.
  - rewrite Hcall. simpl. rewrite Hin, Hget. reflexivity.
  - rewrite bool_decide_eq_true_2 by reflexivity. simpl.
    rewrite Hin, Hget. reflexivity.
Qed.

(** *** Equality of nodes *)

Lemma xcompare_opp (a b : Py.xnum) :
  Py.xcompare b a = CompOpp <$> Py.xcompare a b.
Proof.
  destruct a as [| s | m1 e1], b as [| t | m2 e2]; simpl; try reflexivity.
  - destruct s, t; reflexivity.
  - destruct s; reflexivity.
  - destruct t; reflexivity.
  - rewrite (Z.min_comm e2 e1), Z.compare_antisym. reflexivity.
Qed.

Lemma py_eq_sym (a b : pyval) : py_eq a b = py_eq b a.
Proof.
  unfold py_eq.
  destruct (to_xnum a) as [x |], (to_xnum b) as [y |]; try reflexivity.
  - rewrite (xcompare_opp x y). destruct (Py.xcompare x y) as [[] |]; reflexivity.
  - apply bool_decide_ext. split; congruence.
Qed.

Lemma py_eq_refl (v : pyval) : is_float_nan v = false -> py_eq v v = true.
Proof.
  unfold py_eq. intros Hnan.
  destruct (to_xnum v) as [x |] eqn:Hx.
  - assert (Hc : Py.xcompare x x = Some Eq).
    { destruct x as [| s | m e]; simpl.
      - destruct v; try discriminate. simpl in Hx, Hnan.
        destruct f; simpl in *; discriminate.
      - destruct s; reflexivity.
      - rewrite Z.compare_refl. reflexivity. }
    rewrite Hc. reflexivity.
  - apply bool_decide_eq_true_2. reflexivity.
Qed.

Lemma py_eq_none_r (v : pyval) : py_eq v VNone = is_none v.
Proof. destruct v; reflexivity. Qed.

Lemma FloatNode_eq_node (a b : ValueNode) :
  FloatNode_eq a (ONode (NValue b))
  = negb (is_none (val a))
    && (py_eq (val a) (val b) || is_float_nan (val a) && is_float_nan (val b)).
Proof. unfold FloatNode_eq. simpl. destruct (is_none (val a)); reflexivity. Qed.

(** X4: [FloatNode.__eq__] between two nodes gives the same answer
    whichever node is asked; a node compared with itself is equal exactly
    when it does not hold none; and a node holding NaN is equal to a raw
    value exactly when that value is a NaN too. *)
Theorem FloatNode_eq_between_nodes :
  (forall a b : ValueNode,
      FloatNode_eq a (ONode (NValue b)) = FloatNode_eq b (ONode (NValue a)))
  /\ (forall a : ValueNode,
         FloatNode_eq a (ONode (NValue a)) = negb (is_none (val a)))
  /\ (forall (k : NodeKind) (opt : bool) (w : pyval),
         FloatNode_eq {| kind := k; is_optional := opt; val := VFloat S754_nan |} (OVal w)
         = is_float_nan w).
Proof.
  split; [| split].
  - intros a b. rewrite !FloatNode_eq_node.
    rewrite (py_eq_sym (val b) (val a)),
      (andb_comm (is_float_nan (val b)) (is_float_nan (val a))).
    destruct (is_none (val a)) eqn:Ha, (is_none (val b)) eqn:Hb; simpl;
      try reflexivity.
    + destruct (val a); try discriminate. rewrite py_eq_sym, py_eq_none_r, Hb.
      destruct (is_float_nan (val b)); reflexivity.
    + destruct (val b); try discriminate. rewrite py_eq_none_r, Ha.
      simpl. rewrite andb_false_r. reflexivity.
  - intros a. rewrite FloatNode_eq_node.
    destruct (is_none (val a)); simpl; [reflexivity |].
    destruct (is_float_nan (val a)) eqn:Hn; simpl.
    + apply orb_true_r.
    + rewrite py_eq_refl by exact Hn. reflexivity.
  - intros k opt w. unfold FloatNode_eq. simpl.
    destruct w; reflexivity.
Qed.

(** X5: between two nodes of which neither is a FloatNode, [==] gives the
    same answer in both directions; but a node of another class that holds
    none is equal to a FloatNode that holds none, while that FloatNode is not
    equal to it. *)
Theorem node_eq_not_symmetric_with_FloatNode (a b : ValueNode) :
  kind a <> FloatNode ->
  (kind b <> FloatNode ->
   node_eq a (ONode (NValue b)) = node_eq b (ONode (NValue a)))
  /\ (kind b = FloatNode -> val a = VNone -> val b = VNone ->
      node_eq a (ONode (NValue b)) = true
      /\ node_eq b (ONode (NValue a)) = false
      /\ node_ne b (ONode (NValue a)) = true).
Proof.
  intros Ha. split.
  - intros Hb. unfold node_eq, ValueNode_eq.
    destruct (kind a), (kind b); try contradiction; apply py_eq_sym.
  - intros Hb Hva Hvb. unfold node_ne, node_eq. rewrite Hb.
    assert (Hleft : ValueNode_eq a (ONode (NValue b)) = true).
    { unfold ValueNode_eq. rewrite Hb. unfold FloatNode_eq.
      rewrite Hva, Hvb. reflexivity. }
    assert (Hright : FloatNode_eq b (ONode (NValue a)) = false).
    { rewrite FloatNode_eq_node, Hvb. reflexivity. }
    rewrite Hright.
    destruct (kind a); try contradiction; repeat split; exact Hleft.
Qed.

(** *** Deep copies *)

Lemma ValueNode_deepcopy_id (self : ValueNode) : ValueNode_deepcopy self = Ok self.
Proof.
  destruct self as [k opt v]. unfold ValueNode_deepcopy. simpl.
  destruct k; reflexivity.
Qed.

Fixpoint node_deepcopy_id (n : Node) : node_deepcopy n = Ok n.
Proof.
  destruct n as [v | items et fl]; simpl.
  - rewrite ValueNode_deepcopy_id. reflexivity.
  - match goal with
    | |- match ?copy_all items with _ => _ end = _ =>
        assert (Hall : copy_all items = Ok items)
    end.
    { induction items as [| x items IH]; [reflexivity |].
      rewrite (node_deepcopy_id x), IH. reflexivity. }
    rewrite Hall. reflexivity.
Qed.

(** X6: the deep copy of a scalar node never raises and has the class,
    the value and the optional flag of the original, also when the original
    is not optional or holds a placeholder; the same holds for every element
    of a container, nested lists included. *)
Theorem deepcopy_of_a_node_is_the_node :
  (forall self : ValueNode, ValueNode_deepcopy self = Ok self)
  /\ (forall n : Node, node_deepcopy n = Ok n).
Proof. split; [exact ValueNode_deepcopy_id | exact node_deepcopy_id]. Qed.

End MoreNodeProperties.

(** * More properties of the sequence container *)

Section MoreContainerProperties.
Context `{Externals}.

(** *** Iterating *)

(** X7: iterating a container yields one item per element, in order: the
    stored value for a scalar node and the container itself for a nested
    list; it never yields a scalar node object. *)
Theorem iteration_unwraps_scalar_nodes (self : ListConfig) :
  List.length (__iter__ self) = List.length (content self)
  /\ (forall n : ValueNode, ~ In (ONode (NValue n)) (__iter__ self))
  /\ (forall (i : nat) (node : Node),
         content self !! i = Some node ->
         __iter__ self !! i
         = Some (match node with
                 | NValue n => OVal (val n)
                 | NList _ _ _ => ONode node
                 end)).
Proof.
  unfold __iter__. split; [apply length_map |]. split.
  - intros n Hin. apply in_map_iff in Hin as (x & Hx & _).
    destruct x; discriminate.
  - intros i node Hi.
    change (map ?f ?l) with (f <$> l).
    rewrite list_lookup_fmap, Hi. simpl. destruct node; reflexivity.
Qed.

(** *** [append], [extend], [pop] *)

Lemma append_returns (item : pyobj) (self self' : ListConfig) :
  append item self = Return tt self' ->
  readonly self = false
  /\ exists node, _maybe_wrap (_element_type self) item true = Ok node
                  /\ self' = set_content self (content self ++ [node])%list.
Proof.
  unfold append. intros Happ.
  destruct (readonly self); [discriminate |]. split; [reflexivity |].
  destruct (_maybe_wrap _ item true) as [node | e].
  - exists node. split; [reflexivity | congruence].
  - destruct e; discriminate.
Qed.

Lemma extend_returns (lst : list pyobj) (self self' : ListConfig) :
  extend lst self = Return tt self' ->
  exists nodes,
    self' = set_content self (content self ++ nodes)%list
    /\ Forall2 (fun item node => _maybe_wrap (_element_type self) item true = Ok node)
         lst nodes.
Proof.
  revert self. induction lst as [| x lst IH]; intros self Hext; simpl in Hext.
  - inversion Hext. exists []. rewrite app_nil_r, set_content_same.
    split; [reflexivity | constructor].
  - destruct (append x self) as [[] s1 | e s1] eqn:Happ; [| discriminate].
    apply append_returns in Happ as (_ & node & Hwrap & ->).
    destruct (IH _ Hext) as (nodes & -> & Hall). simpl in *.
    exists (node :: nodes). split.
    + unfold set_content. simpl. rewrite <- app_assoc. reflexivity.
    + constructor; assumption.
Qed.

Lemma extend_app (l1 l2 : list pyobj) (self : ListConfig) :
  extend (l1 ++ l2) self
  = match extend l1 self with
    | Return _ s => extend l2 s
    | Raise e s => Raise e s
    end.
Proof.
  revert self. induction l1 as [| x l1 IH]; intros self; simpl; [reflexivity |].
  destruct (append x self) as [[] s1 | e s1]; [apply IH | reflexivity].
Qed.

(** X8: [extend] with two sequences one after the other is [extend] with
    their concatenation, and an [extend] that returns has added exactly one
    node per item, at the end and in the order of the items, each the node
    the item is wrapped into for this container; the elements that were
    there stay where they are. *)
Theorem extend_appends_in_order (l1 l2 : list pyobj) (self : ListConfig) :
  extend (l1 ++ l2) self
  = match extend l1 self with
    | Return _ s => extend l2 s
    | Raise e s => Raise e s
    end
  /\ forall self',
       extend l1 self = Return tt self' ->
       exists nodes,
         self' = set_content self (content self ++ nodes)%list
         /\ List.length nodes = List.length l1
         /\ Forall2 (fun item node =>
                       _maybe_wrap (_element_type self) item true = Ok node) l1 nodes.
Proof.
  split; [apply extend_app |].
  intros self' Hext. destruct (extend_returns _ _ _ Hext) as (nodes & Hs & Hall).
  exists nodes. split; [exact Hs |]. split; [| exact Hall].
  symmetry. eapply Forall2_length. exact Hall.
Qed.

Lemma position_negative (len : nat) (i : Z) :
  - Z.of_nat len <= i < 0 ->
  PyList.position len i = Some (Z.to_nat (i + Z.of_nat len)).
Proof.
  intros Hi. unfold PyList.position.
  destruct (Z.leb_spec 0 i); [lia |]. simpl.
  destruct (Z.leb_spec (- Z.of_nat len) i); [| lia].
  destruct (Z.ltb_spec i 0); [| lia]. reflexivity.
Qed.

Lemma position_below (len : nat) (i : Z) :
  i < - Z.of_nat len -> PyList.position len i = None.
Proof.
  intros Hi. unfold PyList.position.
  destruct (Z.leb_spec 0 i); [lia |]. simpl.
  destruct (Z.leb_spec (- Z.of_nat len) i); [lia |]. reflexivity.
Qed.

Lemma position_last (len : nat) : PyList.position (S len) (-1) = Some len.
Proof.
  unfold PyList.position. simpl Z.leb. simpl andb.
  destruct (Z.leb_spec (- Z.of_nat (S len)) (-1)); [| lia]. simpl.
  f_equal. lia.
Qed.

Lemma pop_last {A} (l : list A) (x : A) : PyList.pop (-1) (l ++ [x]) = Some (x, l).
Proof.
  unfold PyList.pop. rewrite length_app. simpl.
  replace (List.length l + 1)%nat with (S (List.length l)) by lia.
  rewrite position_last. simpl.
  rewrite list_lookup_middle by reflexivity. simpl.
  rewrite delete_middle, app_nil_r. reflexivity.
Qed.

(** X9: [pop()] after an [append] that returned puts the container back
    as it was before the [append], whether the read hook then returns the
    value of the node just removed or raises. *)
Theorem append_then_pop_restores (item : pyobj) (self s1 : ListConfig) :
  append item self = Return tt s1 ->
  state_of (pop (-1) s1) = self
  /\ exists node,
       _maybe_wrap (_element_type self) item true = Ok node
       /\ pop (-1) s1
          = match _resolve_with_default self (-1) node VNone with
            | Ok v => Return v self
            | Err e => Raise e self
            end.
Proof.
  intros Happ. apply append_returns in Happ as (Hro & node & Hwrap & ->).
  assert (Hpop : pop (-1) (set_content self (content self ++ [node])%list)
                 = match _resolve_with_default self (-1) node VNone with
                   | Ok v => Return v self
                   | Err e => Raise e self
                   end).
  { unfold pop. rewrite readonly_set_content, Hro. simpl content.
    rewrite pop_last. unfold set_content at 1 2 3. simpl.
    destruct self as [c et fl pa]. reflexivity. }
  split.
  - rewrite Hpop. destruct (_resolve_with_default self (-1) node VNone); reflexivity.
  - exists node. split; [exact Hwrap | exact Hpop].
Qed.

(** X10: a [pop] that returns has removed exactly the element that
    [get_node] finds at that index, leaving the others in order, and returns
    what the read hook makes of that node; on an empty container that is not
    read-only every [pop] raises [IndexError]. *)
Theorem pop_removes_the_indexed_node (index : Z) (self : ListConfig) :
  (forall v self',
      pop index self = Return v self' ->
      exists p node,
        PyList.position (List.length (content self)) index = Some p
        /\ get_node index self = Ok node
        /\ self' = set_content self (delete p (content self))
        /\ S (List.length (content self')) = List.length (content self)
        /\ _resolve_with_default self' index node VNone = Ok v)
  /\ (content self = [] -> readonly self = false ->
      pop index self = Raise (IndexError "pop from empty list") self).
Proof.
  split.
  - intros v self' Hpop. unfold pop in Hpop.
    destruct (readonly self); [discriminate |].
    unfold PyList.pop in Hpop.
    destruct (PyList.position (List.length (content self)) index) as [p |] eqn:Hp;
      [| discriminate].
    simpl in Hpop.
    destruct (content self !! p) as [node |] eqn:Hnode; [| discriminate].
    simpl in Hpop.
    destruct (_resolve_with_default _ index node VNone) as [w |] eqn:Hres;
      [| discriminate].
    inversion Hpop; subst w self'.
    exists p, node. split; [reflexivity |]. split.
    { unfold get_node, content_at. rewrite Hp, Hnode. reflexivity. }
    split; [reflexivity |]. split; [| exact Hres].
    simpl. rewrite length_delete by eauto.
    apply lookup_lt_Some in Hnode. lia.
  - intros Hempty Hro. unfold pop, PyList.pop. rewrite Hro, Hempty. simpl.
    destruct (Z.lt_ge_cases index 0).
    + rewrite position_below by (simpl; lia). reflexivity.
    + rewrite position_beyond by (simpl; lia). reflexivity.
Qed.

(** *** Reading by index and by slice *)

(** X11: reading by index follows Python's list indexing.  An index outside
    [-len, len) raises [IndexError] before the read hook is consulted; a
    negative index inside it names the element [len] places further; and an
    index inside [0, len) hands the node at that place to the read hook. *)
Theorem getitem_follows_list_indexing (index : Z) (self : ListConfig) :
  let len := __len__ self in
  (index < - len \/ len <= index ->
   __getitem__ index self = Err (IndexError "list index out of range")
   /\ get_node index self = Err (IndexError "list index out of range"))
  /\ (- len <= index < 0 ->
      get_node index self = get_node (index + len) self)
  /\ (0 <= index < len ->
      exists node,
        content self !! Z.to_nat index = Some node
        /\ get_node index self = Ok node
        /\ __getitem__ index self = _resolve_with_default self index node VNone
        /\ forall d, get index d self = _resolve_with_default self index node d).
Proof.
  unfold __len__. cbv zeta. split; [| split].
  - intros Hout. unfold __getitem__, get_node, content_at.
    assert (Hp : PyList.position (List.length (content self)) index = None).
    { destruct Hout; [apply position_below | apply position_beyond]; lia. }
    rewrite Hp. split; reflexivity.
  - intros Hneg. unfold get_node, content_at.
    rewrite position_negative by lia.
    rewrite position_in_range by lia. reflexivity.
  - intros Hin.
    destruct (lookup_lt_is_Some_2 (content self) (Z.to_nat index)) as [node Hnode];
      [lia |].
    exists node. unfold __getitem__, get, get_node, content_at.
    rewrite position_in_range by lia. rewrite Hnode. repeat split.
Qed.

(** X12: a slice with a negative start or stop, or with a step below one,
    is refused with [ValueError] whatever the container holds: the slice goes
    through [itertools.islice], which takes no such bound. *)
Theorem slice_refuses_negative_bounds (start stop step : option Z) (self : ListConfig) :
  (exists z, (start = Some z \/ stop = Some z) /\ z < 0)
  \/ (exists z, step = Some z /\ z < 1) ->
  exists msg, getitem_slice start stop step self = Err (ValueError msg).
Proof.
  intros Hbad. unfold getitem_slice, islice_range.
  destruct (bool_decide (stop = Some (-1))) eqn:Hminus; [eauto |].
  apply bool_decide_eq_false in Hminus.
  destruct (Z.ltb_spec (default 0 start) 0) as [Hs | Hs]; simpl; [eauto |].
  destruct (match stop with Some s => Z.ltb s (-1) | None => false end) eqn:Hstop;
    [eauto |].
  destruct (Z.ltb_spec (default 1 step) 1) as [Hst | Hst]; [eauto |].
  exfalso. destruct Hbad as [(z & [-> | ->] & Hz) | (z & -> & Hz)]; simpl in *.
  - lia.
  - apply Z.ltb_ge in Hstop. apply Hminus. f_equal. lia.
  - lia.
Qed.

End MoreContainerProperties.

Section MoreContainerProperties2.
Context `{Externals}.





(** *** [index] and [count] *)

Lemma find_index_Some {A} (p : A -> bool) (l : list A) (i : nat) :
  PyList.find_index p l = Some i ->
  exists x, l !! i = Some x /\ p x = true
            /\ forall j y, (j < i)%nat -> l !! j = Some y -> p y = false.
Proof.
  revert i. induction l as [| x l IH]; intros i Hf; simpl in Hf; [discriminate |].
  destruct (p x) eqn:Hx.
  - inversion Hf; subst i. exists x. repeat split; [exact Hx |]. intros j y Hj. lia.
  - destruct (PyList.find_index p l) as [i' |]; [| discriminate].
    simpl in Hf. inversion Hf; subst i.
    destruct (IH i' eq_refl) as (y & Hy & Hpy & Hbefore).
    exists y. split; [exact Hy |]. split; [exact Hpy |].
    intros j z Hj Hz. destruct j as [| j]; simpl in Hz.
    + inversion Hz; subst z. exact Hx.
    + apply (Hbefore j z); [lia | exact Hz].
Qed.

Lemma find_index_None {A} (p : A -> bool) (l : list A) :
  PyList.find_index p l = None <-> forall x, In x l -> p x = false.
Proof.
  induction l as [| x l IH]; simpl.
  - split; [intros _ y [] | reflexivity].
  - destruct (p x) eqn:Hx.
    + split; [discriminate |]. intros Hall. specialize (Hall x (or_introl eq_refl)).
      congruence.
    + destruct (PyList.find_index p l) as [i |]; simpl.
      * split; [discriminate |]. intros Hall.
        assert (Hno : Some i = None)
          by (apply IH; intros y Hy; apply Hall; right; exact Hy).
        discriminate Hno.
      * split; [| reflexivity]. intros _ y [<- | Hy]; [exact Hx |].
        apply IH; [reflexivity | exact Hy].
Qed.

Lemma count_loop (x : pyval) (l : list pyobj) (c : Z) :
  c <= fold_left (fun c item => if eq_item item x then c + 1 else c) l c
    <= c + Z.of_nat (List.length l)
  /\ (fold_left (fun c item => if eq_item item x then c + 1 else c) l c = c
      <-> forall item, In item l -> eq_item item x = false).
Proof.
  revert c. induction l as [| item l IH]; intros c; simpl.
  - split; [lia |]. split; [intros _ y [] | reflexivity].
  - destruct (eq_item item x) eqn:Hitem.
    + destruct (IH (c + 1)) as [Hrange _]. split; [lia |]. split; [lia |].
      intros Hall. specialize (Hall item (or_introl eq_refl)). congruence.
    + destruct (IH c) as [Hrange Hiff]. split; [lia |].
      rewrite Hiff. split.
      * intros Hall y [<- | Hy]; [exact Hitem | apply Hall; exact Hy].
      * intros Hall y Hy. apply Hall. right. exact Hy.
Qed.

Lemma eq_item_item_eq (item : pyobj) (x : pyval) : eq_item item x = item_eq x item.
Proof. destruct item; simpl; [apply py_eq_sym | reflexivity]. Qed.

(** X14: [index] returns the position of the first item that iterating
    yields equal to [x], a position below the length; it raises exactly when
    [count] is zero; and [count] never exceeds the length. *)
Theorem index_finds_the_first_equal_item (x : pyval) (self : ListConfig) :
  (forall i,
      index x self = Ok i ->
      0 <= i < __len__ self
      /\ exists item,
           __iter__ self !! Z.to_nat i = Some item
           /\ item_eq x item = true
           /\ forall j item',
                (j < Z.to_nat i)%nat -> __iter__ self !! j = Some item' ->
                item_eq x item' = false)
  /\ (index x self = Err (ValueError "Item not found in ListConfig")
      <-> count x self = 0)
  /\ ((exists i, index x self = Ok i) <-> 0 < count x self)
  /\ 0 <= count x self <= __len__ self.
Proof.
  destruct (count_loop x (__iter__ self) 0) as [Hrange Hzero].
  assert (Hlen : List.length (__iter__ self) = List.length (content self)).
  { unfold __iter__. apply length_map. }
  assert (Hnone : PyList.find_index (item_eq x) (__iter__ self) = None
                  <-> count x self = 0).
  { rewrite find_index_None. unfold count. rewrite Hzero.
    split; intros Hall item Hin.
    - rewrite eq_item_item_eq. apply Hall. exact Hin.
    - rewrite <- eq_item_item_eq. apply Hall. exact Hin. }
  split; [| split; [| split]].
  - intros i Hi. unfold index in Hi.
    destruct (PyList.find_index _ _) as [p |] eqn:Hf; [| discriminate].
    inversion Hi; subst i. rewrite Nat2Z.id.
    destruct (find_index_Some _ _ _ Hf) as (item & Hitem & Heq & Hfirst).
    split.
    + apply lookup_lt_Some in Hitem. unfold __len__. lia.
    + exists item. repeat split; assumption.
  - rewrite <- Hnone. unfold index.
    destruct (PyList.find_index _ _); split; intros Hx;
      try discriminate; reflexivity.
  - split.
    + intros [i Hi]. unfold index in Hi.
      destruct (PyList.find_index _ _) as [p |] eqn:Hf; [| discriminate].
      destruct (Z.eq_dec (count x self) 0) as [Hc | Hc].
      * apply Hnone in Hc. discriminate Hc.
      * unfold count in *. lia.
    + intros Hpos. unfold index.
      destruct (PyList.find_index _ _) as [p |] eqn:Hf; [eauto |].
      assert (Hc : count x self = 0) by (apply Hnone; reflexivity). lia.
  - unfold count, __len__. rewrite <- Hlen. lia.
Qed.

(** *** [__add__] and [__deepcopy__] *)

Lemma extend_keeps_shape (lst : list pyobj) (self self' : ListConfig) :
  extend lst self = Return tt self' ->
  parent self' = parent self
  /\ _element_type self' = _element_type self
  /\ flags self' = flags self
  /\ List.length (content self') = (List.length (content self) + List.length lst)%nat.
Proof.
  intros Hext. destruct (extend_returns _ _ _ Hext) as (nodes & -> & Hall).
  simpl. repeat split. rewrite length_app.
  apply Forall2_length in Hall. lia.
Qed.

(** X15: a concatenation that returns gives a list that hangs under the
    parent of the left operand, has no element type whatever the left
    operand's is, and has as many elements as the two operands together. *)
Theorem add_builds_a_sibling_list (self res : ListConfig) (o : list pyobj) :
  __add__ self o = Ok res ->
  parent res = parent self
  /\ _element_type res = AnyNode
  /\ List.length (content res)
     = (List.length (content self) + List.length o)%nat.
Proof.
  unfold __add__, ListConfig_init. simpl. intros Hadd.
  destruct (extend (__iter__ self) _) as [[] r1 | e r1] eqn:H1; [| discriminate].
  simpl in Hadd.
  destruct (extend o r1) as [[] r2 | e r2] eqn:H2; [| discriminate].
  simpl in Hadd. inversion Hadd; subst r2.
  destruct (extend_keeps_shape _ _ _ H1) as (Hp1 & He1 & _ & Hl1).
  destruct (extend_keeps_shape _ _ _ H2) as (Hp2 & He2 & _ & Hl2).
  simpl in *. rewrite Hp2, Hp1, He2, He1, Hl2, Hl1.
  repeat split. unfold __iter__. rewrite length_map. reflexivity.
Qed.

Lemma traverse_deepcopy (c : list Node) : traverse node_deepcopy c = Ok c.
Proof.
  induction c as [| x c IH]; simpl; [reflexivity |].
  rewrite node_deepcopy_id, IH. reflexivity.
Qed.

(** X16: the deep copy of a list never raises; it has the content, the
    element type and the local flags of the original but no parent, so it is
    read-only exactly when the original carries the flag itself: what an
    ancestor imposes is not copied. *)
Theorem deepcopy_detaches_from_the_parent (self : ListConfig) :
  __deepcopy__ self = Ok (detached self)
  /\ (readonly (detached self) = true <-> flags self !! "readonly" = Some true).
Proof.
  split.
  - unfold __deepcopy__, ListConfig_init. simpl.
    rewrite traverse_deepcopy. reflexivity.
  - unfold readonly, _get_flag, detached. simpl.
    destruct (flags self !! "readonly") as [[] |]; split; congruence.
Qed.

(** *** [sort], again *)

Lemma insertion_sort_of_sorted {A} (l : list (pyval * A)) :
  Sorted key_ordered l -> PyList.insertion_sort l = (l, None).
Proof.
  induction 1 as [| x l Hs IH Hhd]; simpl; [reflexivity |].
  rewrite IH. destruct Hhd as [| y l Hxy]; simpl; [reflexivity |].
  unfold key_ordered in Hxy. rewrite Hxy. reflexivity.
Qed.

Lemma decorate_of_keys {A} (key : A -> result pyval) (d : list (pyval * A)) :
  Forall (fun p => key p.2 = Ok p.1) d -> PyList.decorate key (map snd d) = Ok d.
Proof.
  induction 1 as [| [k x] d Hk Hall IH]; simpl; [reflexivity |].
  simpl in Hk. rewrite Hk. simpl. rewrite IH. reflexivity.
Qed.

Lemma list_sort_twice {A} (key : A -> result pyval) (reverse : bool) (l l1 : list A) :
  PyList.sort key reverse l = (l1, None) ->
  PyList.sort key reverse l1 = (l1, None).
Proof.
  unfold PyList.sort. intros Hs.
  destruct (PyList.decorate key l) as [d |] eqn:Hd; [| discriminate].
  pose proof (decorate_keys _ _ _ Hd) as Hkeys.
  set (d0 := if reverse then rev d else d) in *.
  pose proof (insertion_sort_Permutation d0) as Hperm.
  destruct (PyList.insertion_sort d0) as [s e] eqn:Hins.
  inversion Hs; subst l1 e. simpl in Hperm.
  apply insertion_sort_Sorted in Hins as Hsorted.
  assert (Hkeys_s : Forall (fun p => key p.2 = Ok p.1) s).
  { rewrite Hperm. unfold d0. destruct reverse; [| exact Hkeys].
    rewrite <- Permutation_rev. exact Hkeys. }
  assert (Hkeys' : Forall (fun p => key p.2 = Ok p.1) (if reverse then rev s else s)).
  { destruct reverse; [| exact Hkeys_s]. rewrite <- Permutation_rev. exact Hkeys_s. }
  rewrite (decorate_of_keys _ _ Hkeys').
  replace (if reverse then rev (if reverse then rev s else s)
           else if reverse then rev s else s) with s
    by (destruct reverse; [symmetry; apply rev_involutive | reflexivity]).
  rewrite (insertion_sort_of_sorted _ Hsorted). reflexivity.
Qed.

(** X17: sorting again changes nothing: after a [sort] that returned, the
    same [sort] returns once more and leaves the container exactly as the
    first one left it. *)
Theorem sort_twice_is_sort_once (key : option (pyval -> result pyval)) (reverse : bool)
    (self s1 : ListConfig) :
  sort key reverse self = Return tt s1 ->
  sort key reverse s1 = Return tt s1.
Proof.
  unfold sort. intros Hsort.
  destruct (readonly self) eqn:Hro; [discriminate |].
  destruct (PyList.sort (key1 key) reverse (content self)) as [c [e |]] eqn:Hs;
    [discriminate |].
  inversion Hsort; subst s1.
  rewrite readonly_set_content, Hro. simpl content.
  rewrite (list_sort_twice _ _ _ _ Hs). reflexivity.
Qed.

End MoreContainerProperties2.

Section AssignmentFailures.
Context `{Externals}.

(** X18: an assignment to a StringNode fails for one input only, none on a
    node that is not optional; an assignment to an AnyNode fails exactly for
    a value that is not a primitive, with [UnsupportedValueType], since an
    AnyNode is always optional when it comes from its constructor. *)
Theorem assignment_to_string_and_any_nodes (self : ValueNode) (v : pyval) (e : Exc) :
  set_value self v = Err e ->
  (kind self = StringNode ->
   v = VNone /\ is_optional self = false
   /\ e = ValidationError "Non optional field cannot be assigned None")
  /\ (kind self = AnyNode -> is_optional self = true ->
      _is_primitive_type v = false /\ exists msg, e = UnsupportedValueType msg).
Proof.
  unfold set_value. intros Hset.
  destruct (match v with VStr s => _ | _ => false end); [discriminate |].
  destruct (negb (is_optional self) && is_none v) eqn:Hguard.
  - inversion Hset; subst e. apply andb_prop in Hguard as [Hopt Hnone].
    split.
    + intros _. destruct v; try discriminate.
      destruct (is_optional self); [discriminate | repeat split].
    + intros _ Hoptional. rewrite Hoptional in Hopt. discriminate.
  - unfold validate_and_convert in Hset. split; intros Hk; rewrite Hk in Hset.
    + unfold StringNode_validate_and_convert in Hset.
      destruct (negb (is_none v)); discriminate.
    + intros _. unfold AnyNode_validate_and_convert in Hset.
      destruct (_is_primitive_type v); simpl in Hset; [discriminate |].
      inversion Hset. split; [reflexivity | eauto].
Qed.

End AssignmentFailures.

(** * The added models at concrete inputs *)

Section MoreRuns.
#[local] Existing Instance sample_externals.

Example slices_run :
  getitem_slice (Some 1) None None three_one_two = Ok [OVal (VInt 1); OVal (VInt 2)]
  /\ getitem_slice None (Some 9) (Some 2) three_one_two
     = Ok [OVal (VInt 3); OVal (VInt 2)]
  /\ getitem_slice (Some 7) None None three_one_two = Ok []
  /\ __getitem__ (-1) missing_last = Err (MissingMandatoryValue "-1")
  /\ count (VBool true) missing_last = 1.
Proof. vm_compute. repeat split. Qed.

Lemma set_value_keeps_node_well_typed_witness :
  set_value required_int (VStr " 4_2 ")
  = Ok {| kind := IntegerNode; is_optional := false; val := VInt 42 |}
  /\ (deferred (VInt 42) \/ canonical IntegerNode (VInt 42))
  /\ (false = false -> VInt 42 <> VNone).
Proof.
  assert (Hrun : set_value required_int (VStr " 4_2 ")
                 = Ok {| kind := IntegerNode; is_optional := false; val := VInt 42 |})
    by (vm_compute; reflexivity).
  split; [exact Hrun |].
  exact (proj2 (proj2 (set_value_keeps_node_well_typed _ _ _ Hrun))).
Defined.

Lemma EnumNode_class_prefix_is_optional_witness :
  String.prefix (enum_name Color ++ ".") "CRIMSON" = false
  /\ EnumNode_validate_and_convert Color (VStr ((enum_name Color ++ ".") ++ "CRIMSON"))
     = EnumNode_validate_and_convert Color (VStr "CRIMSON").
Proof.
  assert (Hbare : String.prefix (enum_name Color ++ ".") "CRIMSON" = false)
    by reflexivity.
  split; [exact Hbare |].
  exact (EnumNode_class_prefix_is_optional Color "CRIMSON" Hbare).
Defined.

Lemma EnumNode_spellings_agree_witness :
  enum_wf Color
  /\ enum_member_value Color "CRIMSON" = Some (EnumInt 1)
  /\ exists member,
       enum_call Color (EnumInt 1) = Some member
       /\ enum_member_value Color member = Some (EnumInt 1)
       /\ EnumNode_validate_and_convert Color (VStr "CRIMSON") = Ok (VEnum Color member)
       /\ EnumNode_validate_and_convert Color (VInt 1) = Ok (VEnum Color member)
       /\ EnumNode_validate_and_convert Color (VEnum Color member)
          = Ok (VEnum Color member).
Proof.
  assert (Hwf : enum_wf Color).
  { unfold enum_wf. apply (bool_decide_unpack _). vm_compute. exact I. }
  assert (Hval : enum_member_value Color "CRIMSON" = Some (EnumInt 1)) by reflexivity.
  split; [exact Hwf |]. split; [exact Hval |].
  exact (EnumNode_spellings_agree Color "CRIMSON" 1 Hwf Hval eq_refl).
Defined.

Lemma node_eq_not_symmetric_with_FloatNode_witness :
  kind (EnumNode_init Color true) <> FloatNode
  /\ node_eq (EnumNode_init Color true) (ONode (NValue (float_node VNone))) = true
  /\ node_eq (float_node VNone) (ONode (NValue (EnumNode_init Color true))) = false
  /\ node_ne (float_node VNone) (ONode (NValue (EnumNode_init Color true))) = true.
Proof.
  assert (Hk : kind (EnumNode_init Color true) <> FloatNode) by discriminate.
  split; [exact Hk |].
  exact (proj2 (node_eq_not_symmetric_with_FloatNode
                  (EnumNode_init Color true) (float_node VNone) Hk)
           eq_refl eq_refl eq_refl).
Defined.

Lemma iteration_unwraps_scalar_nodes_witness :
  content nested !! 0%nat = Some (NValue required_int)
  /\ __iter__ nested !! 0%nat = Some (OVal (VInt 0)).
Proof.
  assert (Hat : content nested !! 0%nat = Some (NValue required_int)) by reflexivity.
  split; [exact Hat |].
  exact (proj2 (proj2 (iteration_unwraps_scalar_nodes nested)) 0%nat _ Hat).
Defined.

Lemma extend_appends_in_order_witness :
  extend [OVal (VInt 7); OVal (VStr "x")] one_two
  = Return tt (set_content one_two
                 (content one_two
                  ++ [NValue (any_node (VInt 7)); NValue (any_node (VStr "x"))])%list)
  /\ exists nodes,
       set_content one_two
         (content one_two
          ++ [NValue (any_node (VInt 7)); NValue (any_node (VStr "x"))])%list
       = set_content one_two (content one_two ++ nodes)%list
       /\ List.length nodes = 2%nat
       /\ Forall2 (fun item node => _maybe_wrap AnyNode item true = Ok node)
            [OVal (VInt 7); OVal (VStr "x")] nodes.
Proof.
  assert (Hrun : extend [OVal (VInt 7); OVal (VStr "x")] one_two
     = Return tt (set_content one_two
                    (content one_two
                     ++ [NValue (any_node (VInt 7)); NValue (any_node (VStr "x"))])%list))
    by (vm_compute; reflexivity).
  split; [exact Hrun |].
  exact (proj2 (extend_appends_in_order [OVal (VInt 7); OVal (VStr "x")] [] one_two)
           _ Hrun).
Defined.

Lemma append_then_pop_restores_witness :
  append (OVal (VInt 3)) one_two
  = Return tt (set_content one_two (content one_two ++ [NValue (any_node (VInt 3))])%list)
  /\ state_of (pop (-1)
                 (set_content one_two
                    (content one_two ++ [NValue (any_node (VInt 3))])%list))
     = one_two.
Proof.
  assert (Hrun : append (OVal (VInt 3)) one_two
     = Return tt (set_content one_two
                    (content one_two ++ [NValue (any_node (VInt 3))])%list))
    by (vm_compute; reflexivity).
  split; [exact Hrun |].
  exact (proj1 (append_then_pop_restores _ _ _ Hrun)).
Defined.

Lemma pop_removes_the_indexed_node_witness :
  pop 0 one_two = Return (OVal (VInt 1)) (set_content one_two [NValue (any_node (VInt 2))])
  /\ exists p node,
       PyList.position (List.length (content one_two)) 0 = Some p
       /\ get_node 0 one_two = Ok node
       /\ set_content one_two [NValue (any_node (VInt 2))]
          = set_content one_two (delete p (content one_two))
       /\ S (List.length (content (set_content one_two [NValue (any_node (VInt 2))])))
          = List.length (content one_two)
       /\ _resolve_with_default (set_content one_two [NValue (any_node (VInt 2))]) 0
            node VNone = Ok (OVal (VInt 1)).
Proof.
  assert (Hrun : pop 0 one_two
     = Return (OVal (VInt 1)) (set_content one_two [NValue (any_node (VInt 2))]))
    by (vm_compute; reflexivity).
  split; [exact Hrun |].
  exact (proj1 (pop_removes_the_indexed_node 0 one_two) _ _ Hrun).
Defined.

Lemma getitem_follows_list_indexing_witness :
  (- __len__ one_two <= -1 < 0)
  /\ get_node (-1) one_two = get_node (-1 + __len__ one_two) one_two.
Proof.
  assert (Hneg : - __len__ one_two <= -1 < 0) by (unfold __len__, one_two; simpl; lia).
  split; [exact Hneg |].
  exact (proj1 (proj2 (getitem_follows_list_indexing (-1) one_two)) Hneg).
Defined.

Lemma slice_refuses_negative_bounds_witness :
  -1 < 0
  /\ exists msg, getitem_slice (Some (-1)) None None one_two = Err (ValueError msg).
Proof.
  assert (Hneg : -1 < 0) by reflexivity.
  split; [exact Hneg |].
  apply (slice_refuses_negative_bounds (Some (-1)) None None one_two).
  left. exists (-1). split; [left; reflexivity | exact Hneg].
Defined.


Lemma index_finds_the_first_equal_item_witness :
  index (VInt 2) three_one_two = Ok 2
  /\ 0 <= 2 < __len__ three_one_two
  /\ 0 < count (VInt 2) three_one_two.
Proof.
  assert (Hrun : index (VInt 2) three_one_two = Ok 2) by (vm_compute; reflexivity).
  pose proof (index_finds_the_first_equal_item (VInt 2) three_one_two)
    as (Hfirst & _ & Hpos & _).
  split; [exact Hrun |]. split.
  - exact (proj1 (Hfirst 2 Hrun)).
  - apply Hpos. exists 2. exact Hrun.
Defined.

Lemma add_builds_a_sibling_list_witness :
  __add__ no_ints [OVal (VStr "5")]
  = Ok {| content := [NValue (any_node (VStr "5"))]; _element_type := AnyNode;
          flags := ∅; parent := None |}
  /\ List.length [NValue (any_node (VStr "5"))]
     = (List.length (content no_ints) + List.length [OVal (VStr "5")])%nat.
Proof.
  assert (Hrun : __add__ no_ints [OVal (VStr "5")]
     = Ok {| content := [NValue (any_node (VStr "5"))]; _element_type := AnyNode;
             flags := ∅; parent := None |}) by (vm_compute; reflexivity).
  split; [exact Hrun |].
  exact (proj2 (proj2 (add_builds_a_sibling_list _ _ _ Hrun))).
Defined.

Lemma deepcopy_detaches_from_the_parent_witness :
  __deepcopy__ nested = Ok (detached nested)
  /\ readonly nested = true
  /\ readonly (detached nested) <> true.
Proof.
  pose proof (deepcopy_detaches_from_the_parent nested) as [Hcopy Hflag].
  split; [exact Hcopy |]. split; [vm_compute; reflexivity |].
  intros Hro. apply Hflag in Hro. vm_compute in Hro. discriminate Hro.
Defined.

Lemma sort_twice_is_sort_once_witness :
  sort None true three_one_two
  = Return tt (set_content three_one_two
                 [NValue (any_node (VInt 3)); NValue (any_node (VInt 2));
                  NValue (any_node (VInt 1))])
  /\ sort None true
       (set_content three_one_two
          [NValue (any_node (VInt 3)); NValue (any_node (VInt 2));
           NValue (any_node (VInt 1))])
     = Return tt (set_content three_one_two
                    [NValue (any_node (VInt 3)); NValue (any_node (VInt 2));
                     NValue (any_node (VInt 1))]).
Proof.
  assert (Hrun : sort None true three_one_two
     = Return tt (set_content three_one_two
                    [NValue (any_node (VInt 3)); NValue (any_node (VInt 2));
                     NValue (any_node (VInt 1))])) by (vm_compute; reflexivity).
  split; [exact Hrun |].
  exact (sort_twice_is_sort_once _ _ _ _ Hrun).
Defined.

Lemma assignment_to_string_and_any_nodes_witness :
  set_value {| kind := StringNode; is_optional := false; val := VStr "a" |} VNone
  = Err (ValidationError "Non optional field cannot be assigned None")
  /\ VNone = VNone /\ false = false
  /\ ValidationError "Non optional field cannot be assigned None"
     = ValidationError "Non optional field cannot be assigned None".
Proof.
  assert (Hrun : set_value {| kind := StringNode; is_optional := false; val := VStr "a" |}
                   VNone
                 = Err (ValidationError "Non optional field cannot be assigned None"))
    by reflexivity.
  split; [exact Hrun |].
  exact (proj1 (assignment_to_string_and_any_nodes _ _ _ Hrun) eq_refl).
Defined.

End MoreRuns.
